(** * SnowFall.js: the particle engine of [snowfall.js], embedded and verified

    JavaScript numbers are idealised as real numbers: [Math.sqrt],
    [Math.sin], [Math.cos] are the functions of the real-number library and
    [Math.atan2] is defined from [atan].  Rounding is not modelled.

    [Math.random()] and [Date.now()] are read from two tapes carried in an
    explicit oracle state, one cell per call, in the order the source makes
    the calls.  The browser (window size, selector queries, element
    rectangles) is a read-only record handed to every entry point; what the
    library does to the browser (canvas appended, listeners registered,
    frames requested, warnings logged) is recorded in the [Dom] part of the
    state. *)

From Stdlib Require Import Reals Lra Lia List Bool String ZArith.
Import ListNotations.
Open Scope R_scope.

(** ** Comparisons of numbers as booleans *)

Definition Rltb (a b : R) : bool := if Rlt_dec a b then true else false.
Definition Rleb (a b : R) : bool := if Rle_dec a b then true else false.
Definition Rgtb (a b : R) : bool := Rltb b a.
Definition Rgeb (a b : R) : bool := Rleb b a.

Declare Scope js_scope.
Delimit Scope js_scope with js.
Infix "<?" := Rltb (at level 70, no associativity) : js_scope.
Infix "<=?" := Rleb (at level 70, no associativity) : js_scope.
Infix ">?" := Rgtb (at level 70, no associativity) : js_scope.
Infix ">=?" := Rgeb (at level 70, no associativity) : js_scope.
Open Scope js_scope.

(** [Math.atan2(y, x)] on real numbers. *)
Definition atan2 (y x : R) : R :=
  if 0 <? x then atan (y / x)
  else if x <? 0 then (if 0 <=? y then atan (y / x) + PI else atan (y / x) - PI)
  else if 0 <? y then PI / 2
  else if y <? 0 then - (PI / 2)
  else 0.

(** ** The oracle: [Math.random] and [Date.now] *)

Record Oracle : Type := mkOracle {
  rand_tape : nat -> R;
  rand_pos : nat;
  clock_tape : nat -> R;
  clock_pos : nat
}.

Definition Eff (A : Type) : Type := Oracle -> A * Oracle.

Definition ret {A : Type} (a : A) : Eff A := fun w => (a, w).

Definition bind {A B : Type} (c : Eff A) (k : A -> Eff B) : Eff B :=
  fun w => let (a, w') := c w in k a w'.

Notation "x <- c ;; k" := (bind c (fun x => k))
  (at level 61, c at next level, right associativity).

Definition Math_random : Eff R :=
  fun w => (rand_tape w (rand_pos w),
            mkOracle (rand_tape w) (S (rand_pos w)) (clock_tape w) (clock_pos w)).

Definition Date_now : Eff R :=
  fun w => (clock_tape w (clock_pos w),
            mkOracle (rand_tape w) (rand_pos w) (clock_tape w) (S (clock_pos w))).

(** Every draw of [Math.random] lies in [[0, 1)]. *)
Definition fair (w : Oracle) : Prop :=
  forall n : nat, 0 <= rand_tape w n < 1.

(** ** Data *)

(** [flakeCount] is taken to be an integer; [spawnFlakes] runs its loop
    [max 0 flakeCount] times. *)
Record Config : Type := mkConfig {
  flakeCount : Z;
  gravity : R;
  wind : R;
  sizeBase : R;
  stickiness : R;
  meltSpeed : R;
  collectSelectors : list string;
  mouseInteraction : bool;
  mouseRepulsionRadius : R;
  zIndex : Z
}.

Definition DEFAULTS : Config :=
  {| flakeCount := 400;
     gravity := 0.7;
     wind := 0.5;
     sizeBase := 3;
     stickiness := 0.9;
     meltSpeed := 0.005;
     collectSelectors := [];
     mouseInteraction := true;
     mouseRepulsionRadius := 150;
     zIndex := 99999 |}.

(** The [options] object of [SnowFall.init]: a field that is absent is
    [None]. *)
Record Options : Type := mkOptions {
  o_flakeCount : option Z;
  o_gravity : option R;
  o_wind : option R;
  o_sizeBase : option R;
  o_stickiness : option R;
  o_meltSpeed : option R;
  o_collectSelectors : option (list string);
  o_mouseInteraction : option bool;
  o_mouseRepulsionRadius : option R;
  o_zIndex : option Z
}.

Definition no_options : Options :=
  mkOptions None None None None None None None None None None.

Definition pick {A : Type} (o : option A) (d : A) : A :=
  match o with Some a => a | None => d end.

(** [{ ...DEFAULTS, ...options }] *)
Definition merge (d : Config) (o : Options) : Config :=
  {| flakeCount := pick (o_flakeCount o) (flakeCount d);
     gravity := pick (o_gravity o) (gravity d);
     wind := pick (o_wind o) (wind d);
     sizeBase := pick (o_sizeBase o) (sizeBase d);
     stickiness := pick (o_stickiness o) (stickiness d);
     meltSpeed := pick (o_meltSpeed o) (meltSpeed d);
     collectSelectors := pick (o_collectSelectors o) (collectSelectors d);
     mouseInteraction := pick (o_mouseInteraction o) (mouseInteraction d);
     mouseRepulsionRadius :=
       pick (o_mouseRepulsionRadius o) (mouseRepulsionRadius d);
     zIndex := pick (o_zIndex o) (zIndex d) |}.

Module Obstacle.
Record t : Type := mk { left : R; right : R; top : R; width : R }.
End Obstacle.

Module Mouse.
Record t : Type := mk { x : R; y : R }.
End Mouse.

(** The fields of a [Snowflake] object (its [sys] back-reference is passed
    to the methods instead). *)
Module Flake.
Record t : Type := mk {
    z : R;
    size : R;
    x : R;
    y : R;
    vy : R;
    vx : R;
    alpha : R;
    meltAlpha : R;
    landed : bool;
    stackOffset : R
  }.

Definition set_x (v : R) (f : t) : t :=
    mk (z f) (size f) v (y f) (vy f) (vx f) (alpha f) (meltAlpha f)
       (landed f) (stackOffset f).
Definition set_y (v : R) (f : t) : t :=
    mk (z f) (size f) (x f) v (vy f) (vx f) (alpha f) (meltAlpha f)
       (landed f) (stackOffset f).
Definition set_meltAlpha (v : R) (f : t) : t :=
    mk (z f) (size f) (x f) (y f) (vy f) (vx f) (alpha f) v
       (landed f) (stackOffset f).
Definition set_landed (v : bool) (f : t) : t :=
    mk (z f) (size f) (x f) (y f) (vy f) (vx f) (alpha f) (meltAlpha f)
       v (stackOffset f).
End Flake.

(** One [ctx.arc] fill: centre, radius and the opacity of the fill style. *)
Record Arc : Type := mkArc { cx : R; cy : R; radius : R; opacity : R }.

Record Canvas : Type :=
  mkCanvas { c_width : R; c_height : R; c_zIndex : option Z }.

(** The fields of the [SnowSystem] object.  [ctx] is the picture painted
    since the last [clearRect]. *)
Module System.
Record t : Type := mk {
    config : option Config;
    flakes : list Flake.t;
    obstacles : list Obstacle.t;
    canvas : option Canvas;
    ctx : list Arc;
    width : R;
    height : R;
    mouse : Mouse.t;
    isRunning : bool
  }.
End System.

(** What a flake reads through [this.sys]. *)
Record SysView : Type := mkView {
  v_config : Config;
  v_width : R;
  v_height : R;
  v_mouse : Mouse.t;
  v_obstacles : list Obstacle.t
}.

(** ** class Snowflake *)

Module Snowflake.

(** [init(isNew)]: every field is assigned, so the previous contents of
    the object do not matter.  The calls of [Math.random] are made in
    source order: z, x, (y when not new), vy, vx, stackOffset. *)
Definition init (sys : SysView) (isNew : bool) : Eff Flake.t :=
  r_z <- Math_random ;;
  let z := r_z * 0.9 + 0.1 in
  let size := sizeBase (v_config sys) * z in
  r_x <- Math_random ;;
  let x := r_x * v_width sys in
  y <- (if isNew then ret (-20)
        else r_y <- Math_random ;; ret (r_y * v_height sys)) ;;
  r_vy <- Math_random ;;
  let vy := gravity (v_config sys) * z + r_vy * 0.5 in
  r_vx <- Math_random ;;
  let vx := (r_vx - 0.5) * 0.5 in
  r_so <- Math_random ;;
  ret (Flake.mk z size x y vy vx 1.0 1.0 false (r_so * 4)).

(** [new Snowflake(system, isNew)] *)
Definition new (sys : SysView) (isNew : bool) : Eff Flake.t := init sys isNew.

(** Step 3 of [update]: the mouse repulsion added to [(dx, dy)]. *)
Definition repel (sys : SysView) (this : Flake.t) (d : R * R) : R * R :=
  let conf := v_config sys in
  let (dx, dy) := d in
  if mouseInteraction conf then
    let distX := Flake.x this - Mouse.x (v_mouse sys) in
    let distY := Flake.y this - Mouse.y (v_mouse sys) in
    let dist := sqrt (distX * distX + distY * distY) in
    if dist <? mouseRepulsionRadius conf then
      let force :=
        (mouseRepulsionRadius conf - dist) / mouseRepulsionRadius conf in
      let angle := atan2 distY distX in
      (dx + cos angle * force * 5 * Flake.z this,
       dy + sin angle * force * 5 * Flake.z this)
    else (dx, dy)
  else (dx, dy).

(** Steps 2 and 3 and the two assignments [this.x += dx; this.y += dy]:
    the flake after integration. *)
Definition integrate (sys : SysView) (now : R) (this : Flake.t) : Flake.t :=
  let conf := v_config sys in
  let dx := Flake.vx this + wind conf * Flake.z this in
  let dx := dx + sin (Flake.y this * 0.01 + now * 0.002) * 0.5 * Flake.z this in
  let dy := Flake.vy this in
  let (dx, dy) := repel sys this (dx, dy) in
  let this := Flake.set_x (Flake.x this + dx) this in
  Flake.set_y (Flake.y this + dy) this.

(** The two horizontal tests of step 4. *)
Definition wrap (sys : SysView) (this : Flake.t) : Flake.t :=
  let this :=
    if Flake.x this >? v_width sys + 5 then Flake.set_x (-5) this else this in
  if Flake.x this <? -5 then Flake.set_x (v_width sys + 5) this else this.

Definition move (sys : SysView) (now : R) (this : Flake.t) : Flake.t :=
  wrap sys (integrate sys now this).

Definition landY (obs : Obstacle.t) (this : Flake.t) : R :=
  Obstacle.top obs - Flake.size this * 0.5 + Flake.stackOffset this.

(** The obstacle qualifies for the flake as it is now: x strictly inside
    the span and y inside the hit window. *)
Definition qualifies (obs : Obstacle.t) (this : Flake.t) : bool :=
  (Flake.x this >? Obstacle.left obs) && (Flake.x this <? Obstacle.right obs)
  && (Flake.y this >=? landY obs this) && (Flake.y this <=? landY obs this + 10).

(** One iteration of [for (let obs of this.sys.obstacles)].
    [Math.random] is called only for an obstacle that qualifies. *)
Definition hit (conf : Config) (obs : Obstacle.t) (this : Flake.t)
  : Eff Flake.t :=
  if qualifies obs this then
    r <- Math_random ;;
    if r <? stickiness conf then
      ret (Flake.set_y (landY obs this) (Flake.set_landed true this))
    else ret this
  else ret this.

(** The whole loop: there is no [break], every obstacle is visited. *)
Fixpoint collide (conf : Config) (obstacles : list Obstacle.t)
    (this : Flake.t) : Eff Flake.t :=
  match obstacles with
  | [] => ret this
  | obs :: rest => this' <- hit conf obs this ;; collide conf rest this'
  end.

(** Step 5 of [update]. *)
Definition detect (sys : SysView) (this : Flake.t) : Eff Flake.t :=
  if Flake.z this >? 0.4 then collide (v_config sys) (v_obstacles sys) this
  else ret this.

Definition update (sys : SysView) (this : Flake.t) : Eff Flake.t :=
  if Flake.landed this then
    let this :=
      Flake.set_meltAlpha
        (Flake.meltAlpha this - meltSpeed (v_config sys)) this in
    if Flake.meltAlpha this <=? 0 then init sys true else ret this
  else
    now <- Date_now ;;
    let this := move sys now this in
    this <- (if Flake.y this >? v_height sys then init sys true
             else ret this) ;;
    detect sys this.

Definition draw (this : Flake.t) : Arc :=
  let opacity :=
    if Flake.landed this then Flake.meltAlpha this else Flake.z this * 0.8 in
  mkArc (Flake.x this) (Flake.y this) (Flake.size this) opacity.

End Snowflake.

(** ** The browser *)

Module DOMRect.
Record t : Type := mk { left : R; right : R; top : R; bottom : R; width : R }.
End DOMRect.

(** What the library reads from the browser.  DOM elements are numbered;
    [querySelectorAll] answers [None] where the browser throws on an invalid
    selector. *)
Record Window : Type := mkWindow {
  innerWidth : R;
  innerHeight : R;
  querySelectorAll : string -> option (list nat);
  getBoundingClientRect : nat -> DOMRect.t
}.

Inductive Listener : Type := OnResize | OnScroll | OnMouseMove.

(** What the library does to the browser. *)
Record Dom : Type := mkDom {
  appended : nat;              (* canvases appended to document.body *)
  listeners : list Listener;   (* window.addEventListener, in call order *)
  frames : nat;                (* pending requestAnimationFrame callbacks *)
  warnings : list string       (* console.warn *)
}.

Record World : Type := mkWorld {
  sys : System.t;
  dom : Dom;
  oracle : Oracle
}.

Inductive Event : Type :=
| Resize
| Scroll
| MouseMove (clientX clientY : R)
| AnimationFrame.

(** ** class SnowSystem *)

Module SnowSystem.

(** [constructor()] *)
Definition constructor : System.t :=
  System.mk None [] [] None [] 0 0 (Mouse.mk (-999) (-999)) false.

Definition view (c : Config) (s : System.t) : SysView :=
  mkView c (System.width s) (System.height s) (System.mouse s)
         (System.obstacles s).

Definition set_obstacles (o : list Obstacle.t) (s : System.t) : System.t :=
  System.mk (System.config s) (System.flakes s) o (System.canvas s)
            (System.ctx s) (System.width s) (System.height s)
            (System.mouse s) (System.isRunning s).

Definition set_flakes (fs : list Flake.t) (s : System.t) : System.t :=
  System.mk (System.config s) fs (System.obstacles s) (System.canvas s)
            (System.ctx s) (System.width s) (System.height s)
            (System.mouse s) (System.isRunning s).

Definition set_mouse (m : Mouse.t) (s : System.t) : System.t :=
  System.mk (System.config s) (System.flakes s) (System.obstacles s)
            (System.canvas s) (System.ctx s) (System.width s)
            (System.height s) m (System.isRunning s).

Definition createCanvas (w : World) : World :=
  let s := sys w in
  let zi := match System.config s with
            | Some c => Some (zIndex c)
            | None => None
            end in
  let s' := System.mk (System.config s) (System.flakes s) (System.obstacles s)
                      (Some (mkCanvas 300 150 zi)) []
                      (System.width s) (System.height s) (System.mouse s)
                      (System.isRunning s) in
  let d := dom w in
  mkWorld s' (mkDom (S (appended d)) (listeners d) (frames d) (warnings d))
          (oracle w).

Definition bindEvents (w : World) : World :=
  let d := dom w in
  let mouse_on := match System.config (sys w) with
                  | Some c => mouseInteraction c
                  | None => false
                  end in
  let ls := listeners d ++ [OnResize; OnScroll]
            ++ (if mouse_on then [OnMouseMove] else []) in
  mkWorld (sys w) (mkDom (appended d) ls (frames d) (warnings d)) (oracle w).

(** [elements.add(el)] on a [Set]: insertion order, no duplicates. *)
Definition set_add (el : nat) (elements : list nat) : list nat :=
  if existsb (Nat.eqb el) elements then elements else elements ++ [el].

(** The [forEach] over [collectSelectors]: the elements found, and the
    selectors warned about. *)
Fixpoint gather (win : Window) (selectors : list string)
    (acc : list nat * list string) : list nat * list string :=
  match selectors with
  | [] => acc
  | selector :: rest =>
      let (elements, warned) := acc in
      match querySelectorAll win selector with
      | Some found =>
          gather win rest (fold_left (fun e el => set_add el e) found elements,
                           warned)
      | None => gather win rest (elements, warned ++ [selector])
      end
  end.

(** The [map] and [filter(Boolean)] of [updateObstacles]. *)
Definition to_obstacles (win : Window) (height : R) (elements : list nat)
  : list Obstacle.t :=
  flat_map (fun el =>
    let rect := getBoundingClientRect win el in
    if (DOMRect.bottom rect <? 0) || (DOMRect.top rect >? height) then []
    else [Obstacle.mk (DOMRect.left rect) (DOMRect.right rect)
                      (DOMRect.top rect) (DOMRect.width rect)]) elements.

Definition updateObstacles (win : Window) (w : World) : World :=
  let s := sys w in
  match System.config s with
  | Some {| collectSelectors := (_ :: _) as selectors |} =>
      let (elements, warned) := gather win selectors ([], []) in
      let d := dom w in
      mkWorld (set_obstacles (to_obstacles win (System.height s) elements) s)
              (mkDom (appended d) (listeners d) (frames d)
                     (warnings d ++ warned))
              (oracle w)
  | _ => mkWorld (set_obstacles [] s) (dom w) (oracle w)
  end.

(** [resize()]; it is only ever called once the canvas exists. *)
Definition resize (win : Window) (w : World) : World :=
  let s := sys w in
  let cv := match System.canvas s with
            | Some c => Some (mkCanvas (innerWidth win) (innerHeight win)
                                       (c_zIndex c))
            | None => None
            end in
  let s' := System.mk (System.config s) (System.flakes s) (System.obstacles s)
                      cv (System.ctx s) (innerWidth win) (innerHeight win)
                      (System.mouse s) (System.isRunning s) in
  updateObstacles win (mkWorld s' (dom w) (oracle w)).

(** The body of the [for] loop of [spawnFlakes], run [n] times. *)
Fixpoint spawn (v : SysView) (n : nat) : Eff (list Flake.t) :=
  match n with
  | O => ret []
  | S k => f <- Snowflake.new v false ;; fs <- spawn v k ;; ret (f :: fs)
  end.

Definition spawnFlakes (w : World) : World :=
  let s := sys w in
  match System.config s with
  | Some c =>
      let (fs, o) := spawn (view c s) (Z.to_nat (flakeCount c)) (oracle w) in
      mkWorld (set_flakes fs s) (dom w) o
  | None => mkWorld (set_flakes [] s) (dom w) (oracle w)
  end.

(** [flakes.forEach(flake => { flake.update(); flake.draw(); })]: the
    updated flakes and the arcs painted, in order. *)
Fixpoint each (v : SysView) (fs : list Flake.t)
  : Eff (list Flake.t * list Arc) :=
  match fs with
  | [] => ret ([], [])
  | flake :: rest =>
      flake' <- Snowflake.update v flake ;;
      r <- each v rest ;;
      ret (flake' :: fst r, Snowflake.draw flake' :: snd r)
  end.

Definition loop (w : World) : World :=
  let s := sys w in
  let d := dom w in
  let d' := mkDom (appended d) (listeners d) (S (frames d)) (warnings d) in
  match System.config s with
  | Some c =>
      let (r, o) := each (view c s) (System.flakes s) (oracle w) in
      let s' := System.mk (System.config s) (fst r) (System.obstacles s)
                          (System.canvas s) (snd r) (System.width s)
                          (System.height s) (System.mouse s)
                          (System.isRunning s) in
      mkWorld s' d' o
  | None =>
      let s' := System.mk (System.config s) (System.flakes s)
                          (System.obstacles s) (System.canvas s) []
                          (System.width s) (System.height s) (System.mouse s)
                          (System.isRunning s) in
      mkWorld s' d' (oracle w)
  end.

Definition set_config (c : Config) (w : World) : World :=
  let s := sys w in
  mkWorld (System.mk (Some c) (System.flakes s) (System.obstacles s)
                     (System.canvas s) (System.ctx s) (System.width s)
                     (System.height s) (System.mouse s) (System.isRunning s))
          (dom w) (oracle w).

Definition set_isRunning (b : bool) (w : World) : World :=
  let s := sys w in
  mkWorld (System.mk (System.config s) (System.flakes s) (System.obstacles s)
                     (System.canvas s) (System.ctx s) (System.width s)
                     (System.height s) (System.mouse s) b)
          (dom w) (oracle w).

(** [init(options = {})] *)
Definition init (win : Window) (options : Options) (w : World) : World :=
  if System.isRunning (sys w) then w
  else
    let w := set_config (merge DEFAULTS options) w in
    let w := createCanvas w in
    let w := bindEvents w in
    let w := resize win w in
    let w := spawnFlakes w in
    let w := loop w in
    set_isRunning true w.

(** What one registered listener does when its event fires. *)
Definition handle (win : Window) (ev : Event) (l : Listener) (w : World)
  : World :=
  match ev, l with
  | Resize, OnResize => resize win w
  | Scroll, OnScroll => updateObstacles win w
  | MouseMove clientX clientY, OnMouseMove =>
      mkWorld (set_mouse (Mouse.mk clientX clientY) (sys w)) (dom w) (oracle w)
  | _, _ => w
  end.

(** The browser delivers an event: every listener registered for it runs;
    an animation frame runs one pending [loop] callback. *)
Definition deliver (win : Window) (ev : Event) (w : World) : World :=
  match ev with
  | AnimationFrame =>
      match frames (dom w) with
      | O => w
      | S k =>
          let d := dom w in
          loop (mkWorld (sys w)
                        (mkDom (appended d) (listeners d) k (warnings d))
                        (oracle w))
      end
  | _ => fold_left (fun w l => handle win ev l w) (listeners (dom w)) w
  end.

(** A run of the page: the events delivered, each with the browser as it
    is at that moment. *)
Fixpoint run (evs : list (Window * Event)) (w : World) : World :=
  match evs with
  | [] => w
  | (win, ev) :: rest => run rest (deliver win ev w)
  end.

End SnowSystem.

(** [window.SnowFall = new SnowSystem()] on a fresh page. *)
Definition page (o : Oracle) : World :=
  mkWorld SnowSystem.constructor (mkDom 0 [] 0 []) o.

(** * Vocabulary of the properties *)

(** ** The oracle *)

(** [c] reads the tapes and moves their heads forward, nothing else. *)
Definition advances {A : Type} (c : Eff A) : Prop :=
  forall w, rand_tape (snd (c w)) = rand_tape w
            /\ clock_tape (snd (c w)) = clock_tape w.

(** The [i]-th draw from now on, the oracle after [n] draws, and the
    oracle after one reading of the clock. *)
Definition draw_at (w : Oracle) (i : nat) : R := rand_tape w (i + rand_pos w).

Definition skip (n : nat) (w : Oracle) : Oracle :=
  mkOracle (rand_tape w) (n + rand_pos w) (clock_tape w) (clock_pos w).

Definition tick (w : Oracle) : Oracle := snd (Date_now w).

(** ** Flakes *)

(** The spawn rule for a "new" spawn, read off the draws of [w]. *)
Definition new_spawn (v : SysView) (w : Oracle) (f : Flake.t) : Prop :=
  Flake.y f = -20
  /\ Flake.z f = draw_at w 0 * 0.9 + 0.1
  /\ 0.1 <= Flake.z f < 1.0
  /\ Flake.size f = sizeBase (v_config v) * Flake.z f
  /\ Flake.x f = draw_at w 1 * v_width v
  /\ Flake.vy f = gravity (v_config v) * Flake.z f + draw_at w 2 * 0.5
  /\ 0 <= draw_at w 2 * 0.5 < 0.5
  /\ Flake.vx f = (draw_at w 3 - 0.5) * 0.5
  /\ -0.25 <= Flake.vx f < 0.25
  /\ Flake.alpha f = 1.0
  /\ Flake.meltAlpha f = 1.0
  /\ Flake.landed f = false
  /\ Flake.stackOffset f = draw_at w 4 * 4
  /\ 0 <= Flake.stackOffset f < 4.

(** The spawn rule with y drawn across the height instead of y = -20. *)
Definition midfield (c : Config) (width height : R) (f : Flake.t) : Prop :=
  (exists r, 0 <= r < 1 /\ Flake.y f = r * height)
  /\ 0.1 <= Flake.z f < 1.0
  /\ Flake.size f = sizeBase c * Flake.z f
  /\ (exists r, 0 <= r < 1 /\ Flake.x f = r * width)
  /\ (exists r, 0 <= r < 0.5 /\ Flake.vy f = gravity c * Flake.z f + r)
  /\ -0.25 <= Flake.vx f < 0.25
  /\ Flake.alpha f = 1.0
  /\ Flake.meltAlpha f = 1.0
  /\ Flake.landed f = false
  /\ 0 <= Flake.stackOffset f < 4.

(** The two places where [update] respawns: the melt opacity is used up,
    or the moved flake is below the bottom edge. *)
Definition melted (v : SysView) (f : Flake.t) : Prop :=
  Flake.landed f = true
  /\ Flake.meltAlpha f - meltSpeed (v_config v) <= 0.

Definition fell_out (v : SysView) (f : Flake.t) (w : Oracle) : Prop :=
  Flake.landed f = false
  /\ Flake.y (Snowflake.move v (fst (Date_now w)) f) > v_height v.

(** The flake after a successful hit on [o]. *)
Definition snap (o : Obstacle.t) (f : Flake.t) : Flake.t :=
  Flake.set_y (Snowflake.landY o f) (Flake.set_landed true f).

(** [g] differs from [f] at most in y and landed. *)
Definition same_body (f g : Flake.t) : Prop :=
  Flake.z g = Flake.z f /\ Flake.size g = Flake.size f
  /\ Flake.x g = Flake.x f /\ Flake.vy g = Flake.vy f
  /\ Flake.vx g = Flake.vx f /\ Flake.alpha g = Flake.alpha f
  /\ Flake.meltAlpha g = Flake.meltAlpha f
  /\ Flake.stackOffset g = Flake.stackOffset f.

(** Depth in range and size consistent with it. *)
Definition good (c : Config) (f : Flake.t) : Prop :=
  0.1 <= Flake.z f < 1.0 /\ Flake.size f = sizeBase c * Flake.z f.

(** The band in which every flake stays. *)
Definition safe (f : Flake.t) : Prop := -5 <= Flake.x f.

(** ** Worlds *)

(** [w'] has the configuration, the mouse, the running flag and the window
    size of [w]. *)
Definition same_setup (w w' : World) : Prop :=
  System.config (sys w') = System.config (sys w)
  /\ System.mouse (sys w') = System.mouse (sys w)
  /\ System.isRunning (sys w') = System.isRunning (sys w)
  /\ System.width (sys w') = System.width (sys w)
  /\ System.height (sys w') = System.height (sys w).

(** [w'] has the flakes and the oracle of [w]. *)
Definition same_flakes (w w' : World) : Prop :=
  System.flakes (sys w') = System.flakes (sys w) /\ oracle w' = oracle w.

(** The world that [init] hands to [spawnFlakes], and the one it hands to
    [loop]. *)
Definition prepared (win : Window) (options : Options) (w : World) : World :=
  SnowSystem.resize win
    (SnowSystem.bindEvents
       (SnowSystem.createCanvas
          (SnowSystem.set_config (merge DEFAULTS options) w))).

Definition spawned (win : Window) (options : Options) (w : World) : World :=
  SnowSystem.spawnFlakes (prepared win options w).

Definition is_pointer (ev : Event) : bool :=
  match ev with MouseMove _ _ => true | _ => false end.

(** No pointer input is delivered in the run. *)
Definition no_pointer (evs : list (Window * Event)) : bool :=
  forallb (fun p => negb (is_pointer (snd p))) evs.

(** The invariant of a running page: the configuration is [c], the oracle
    is fair, the window width satisfies [okw] and every flake satisfies
    [P]. *)
Definition WInv (c : Config) (okw : R -> Prop) (P : Flake.t -> Prop)
    (w : World) : Prop :=
  System.config (sys w) = Some c
  /\ fair (oracle w)
  /\ okw (System.width (sys w))
  /\ Forall P (System.flakes (sys w)).

(** ** Further vocabulary *)

(** The flake is falling. *)
Definition airborne (f : Flake.t) : Prop := Flake.landed f = false.

(** The melt opacity is in (0, 1], and it is 1 while the flake falls. *)
Definition melt_ok (f : Flake.t) : Prop :=
  0 < Flake.meltAlpha f <= 1
  /\ (Flake.landed f = false -> Flake.meltAlpha f = 1).

(** The rectangle is kept by the filter of [updateObstacles]. *)
Definition on_screen (height : R) (rect : DOMRect.t) : Prop :=
  0 <= DOMRect.bottom rect /\ DOMRect.top rect <= height.

(** The obstacle that [updateObstacles] makes of a rectangle. *)
Definition obstacle_of (rect : DOMRect.t) : Obstacle.t :=
  Obstacle.mk (DOMRect.left rect) (DOMRect.right rect) (DOMRect.top rect)
              (DOMRect.width rect).

(** The page after a start: one canvas, one pending frame, and the
    listeners that [bindEvents] registers for configuration [c]. *)
Definition started (c : Config) (w : World) : Prop :=
  System.isRunning (sys w) = true
  /\ System.config (sys w) = Some c
  /\ appended (dom w) = 1%nat
  /\ frames (dom w) = 1%nat
  /\ listeners (dom w)
     = [OnResize; OnScroll]
       ++ (if mouseInteraction c then [OnMouseMove] else [])
  /\ exists cw ch, System.canvas (sys w) = Some (mkCanvas cw ch (Some (zIndex c)))
                   /\ cw = System.width (sys w) /\ ch = System.height (sys w).

(** The invariant of a page without obstacles. *)
Definition bare (c : Config) (w : World) : Prop :=
  System.config (sys w) = Some c
  /\ System.obstacles (sys w) = []
  /\ Forall airborne (System.flakes (sys w)).

(** Every element a selector of the list finds. *)
Definition found_by (win : Window) (selectors : list string) (el : nat)
  : Prop :=
  exists selector found,
    In selector selectors
    /\ querySelectorAll win selector = Some found /\ In el found.

(** The selectors of the list that the browser rejects, in order. *)
Definition rejected (win : Window) (selectors : list string) : list string :=
  filter (fun selector =>
            match querySelectorAll win selector with
            | Some _ => false
            | None => true
            end) selectors.

(** The fields that only a spawn assigns are in the ranges of the spawn
    rule. *)
Definition spawn_ranges (c : Config) (f : Flake.t) : Prop :=
  gravity c * Flake.z f <= Flake.vy f < gravity c * Flake.z f + 0.5
  /\ -0.25 <= Flake.vx f < 0.25
  /\ 0 <= Flake.stackOffset f < 4
  /\ Flake.alpha f = 1.

(** * Sample data *)

(** An oracle whose draws are all 0.5 and whose clock stands at 0. *)
Definition half : Oracle := mkOracle (fun _ => 0.5) 0 (fun _ => 0) 0.

(** An empty page shown in an 800 x 600 window. *)
Definition window0 : Window :=
  mkWindow 800 600 (fun _ => Some []) (fun _ => DOMRect.mk 0 0 0 0 0).

(** Default configuration in that window, no obstacle, the mouse where the
    constructor leaves it. *)
Definition view0 : SysView :=
  mkView DEFAULTS 800 600 (Mouse.mk (-999) (-999)) [].

(** Stickiness 1, mouse off, everything else default. *)
Definition sticky : Config :=
  merge DEFAULTS
        (mkOptions None None None None (Some 1) None None (Some false) None None).

(** Only one flake is asked for. *)
Definition one_flake : Options :=
  mkOptions (Some 1%Z) None None None None None None None None None.

(** One flake and a repulsion radius of 2000. *)
Definition wide_one : Options :=
  mkOptions (Some 1%Z) None None None None None None None (Some 2000) None.

(** A landed flake one melt step away from zero, and one that has just
    started to melt. *)
Definition almost_melted : Flake.t :=
  Flake.mk 0.5 1.5 100 200 0.6 0 1.0 0.005 true 2.

Definition just_landed : Flake.t :=
  Flake.mk 0.5 1.5 100 200 0.6 0 1.0 1.0 true 2.

(** An element whose top edge is the bottom edge of the window, and a
    falling flake at the bottom edge, z = 0.5. *)
Definition floor_obs : Obstacle.t := Obstacle.mk 0 800 600 800.

Definition floor_view : SysView :=
  mkView sticky 800 600 (Mouse.mk (-999) (-999)) [floor_obs].

Definition at_floor : Flake.t := Flake.mk 0.5 1.5 400 600 0.6 0 1.0 1.0 false 1.

(** A shelf in the middle of the window. *)
Definition shelf : Obstacle.t := Obstacle.mk 0 800 300 800.

Definition shelf_view : SysView :=
  mkView sticky 800 600 (Mouse.mk (-999) (-999)) [shelf].

(** Two overlapping elements, the second one 5 units higher, and a flake
    inside both hit windows: [99.25, 109.25] and [94.25, 104.25]. *)
Definition lower : Obstacle.t := Obstacle.mk 0 800 100 800.

Definition upper : Obstacle.t := Obstacle.mk 0 800 95 800.

Definition between : Flake.t := Flake.mk 0.5 1.5 400 101 0.6 0 1.0 1.0 false 0.

(** An element hanging over the top edge of the window. *)
Definition lintel : Obstacle.t := Obstacle.mk 0 800 (-25) 800.

Definition lintel_view : SysView :=
  mkView sticky 800 600 (Mouse.mk (-999) (-999)) [lintel].

(** A falling flake in the middle of the window. *)
Definition drifting : Flake.t := Flake.mk 0.5 1.5 400 300 0.6 0 1.0 1.0 false 1.

(** One frame, a resize, a mouse move and another frame. *)
Definition session : list (Window * Event) :=
  [(window0, AnimationFrame); (window0, Resize);
   (window0, MouseMove 400 300); (window0, AnimationFrame)].

(** Two frames, a resize and a scroll; the mouse never moves. *)
Definition quiet_session : list (Window * Event) :=
  [(window0, AnimationFrame); (window0, Resize); (window0, Scroll);
   (window0, AnimationFrame)].

(** A falling flake far from the screen plane, z = 0.3. *)
Definition far_flake : Flake.t :=
  Flake.mk 0.3 0.9 400 299 0.46 0 1.0 1.0 false 1.

(** An element that reaches past the right edge of the window, and one
    that spans the whole band in which flakes live. *)
Definition ledge : Obstacle.t := Obstacle.mk 700 900 300 200.

Definition ledge_view : SysView :=
  mkView sticky 800 600 (Mouse.mk (-999) (-999)) [ledge].

Definition wide_shelf : Obstacle.t := Obstacle.mk (-10) 900 300 910.

Definition wide_shelf_view : SysView :=
  mkView sticky 800 600 (Mouse.mk (-999) (-999)) [wide_shelf].

(** A falling flake about to cross x = width + 5 = 805, z = 0.5. *)
Definition at_edge : Flake.t :=
  Flake.mk 0.5 1.5 804.9 300 0.6 0.2 1.0 1.0 false 1.

(** A page whose only element is a shelf across the window, its top at
    y = 295: every selector finds it. *)
Definition window2 : Window :=
  mkWindow 800 600 (fun _ => Some [0%nat])
           (fun _ => DOMRect.mk 0 800 295 345 800).

(** One flake, the shelf collected, mouse off; stickiness 0, and the same
    with stickiness 1. *)
Definition slippery_options : Options :=
  mkOptions (Some 1%Z) None None None (Some 0) None
            (Some [".shelf"%string]) (Some false) None None.

Definition sticky_options : Options :=
  mkOptions (Some 1%Z) None None None (Some 1) None
            (Some [".shelf"%string]) (Some false) None None.

(** Three more frames over that page, with a scroll in between. *)
Definition shelf_session : list (Window * Event) :=
  [(window2, AnimationFrame); (window2, Scroll); (window2, AnimationFrame);
   (window2, AnimationFrame)].

(** A page with two elements: one on screen, one scrolled far above the
    window; [".card"] finds both, [".nav"] finds the first one again, and
    ["!!"] is not a selector. *)
Definition page_rect (el : nat) : DOMRect.t :=
  match el with
  | O => DOMRect.mk 100 300 200 260 200
  | _ => DOMRect.mk 100 300 (-400) (-340) 200
  end.

Definition page_query (selector : string) : option (list nat) :=
  if String.eqb selector ".card"%string then Some [0%nat; 1%nat]
  else if String.eqb selector ".nav"%string then Some [0%nat]
  else if String.eqb selector "!!"%string then None
  else Some [].

Definition window1 : Window := mkWindow 800 600 page_query page_rect.

Definition card_options : Options :=
  mkOptions None None None None None None (Some [".card"%string; "!!"%string; ".nav"%string])
            None None None.

(** The default configuration with the pointer 5 away from the flake
    [drifting]: 3 to its left and 4 above it. *)
Definition near_view : SysView :=
  mkView DEFAULTS 800 600 (Mouse.mk 397 296) [].

(** The default configuration with the pointer exactly on the flake
    [drifting]. *)
Definition on_view : SysView :=
  mkView DEFAULTS 800 600 (Mouse.mk 400 300) [].

(** * Properties *)

(** ** Comparisons *)

Lemma Rltb_true (a b : R) : (a <? b) = true <-> a < b.
Proof. unfold Rltb; destruct (Rlt_dec a b); split; intros; try easy. Qed.

Lemma Rltb_false (a b : R) : (a <? b) = false <-> b <= a.
Proof.
  unfold Rltb; destruct (Rlt_dec a b); split; intros; try easy; lra.
Qed.

Lemma Rleb_true (a b : R) : (a <=? b) = true <-> a <= b.
Proof. unfold Rleb; destruct (Rle_dec a b); split; intros; try easy. Qed.

Lemma Rleb_false (a b : R) : (a <=? b) = false <-> b < a.
Proof.
  unfold Rleb; destruct (Rle_dec a b); split; intros; try easy; lra.
Qed.

Lemma Rgtb_true (a b : R) : (a >? b) = true <-> a > b.
Proof. unfold Rgtb; rewrite Rltb_true; lra. Qed.

Lemma Rgtb_false (a b : R) : (a >? b) = false <-> a <= b.
Proof. unfold Rgtb; rewrite Rltb_false; lra. Qed.

Lemma Rgeb_true (a b : R) : (a >=? b) = true <-> a >= b.
Proof. unfold Rgeb; rewrite Rleb_true; lra. Qed.

Lemma Rgeb_false (a b : R) : (a >=? b) = false <-> a < b.
Proof. unfold Rgeb; rewrite Rleb_false; lra. Qed.

(** Decide one comparison whose outcome [lra] can see. *)
Ltac cmp_true :=
  first [ apply Rltb_true | apply Rleb_true | apply Rgtb_true
        | apply Rgeb_true ]; lra.
Ltac cmp_false :=
  first [ apply Rltb_false | apply Rleb_false | apply Rgtb_false
        | apply Rgeb_false ]; lra.

Ltac decide_cmp c :=
  first [ replace c with true by (symmetry; cmp_true)
        | replace c with false by (symmetry; cmp_false) ].

(** Evaluate the comparisons of the goal, innermost decidable first. *)
Ltac eval_cmps :=
  repeat match goal with
         | |- context [Rltb ?a ?b] => decide_cmp (Rltb a b)
         | |- context [Rleb ?a ?b] => decide_cmp (Rleb a b)
         | |- context [Rgtb ?a ?b] => decide_cmp (Rgtb a b)
         | |- context [Rgeb ?a ?b] => decide_cmp (Rgeb a b)
         end.

(** ** The oracle is only ever advanced *)

Lemma advances_ret {A : Type} (a : A) : advances (ret a).
Proof. intro w; split; reflexivity. Qed.

Lemma advances_random : advances Math_random.
Proof. intro w; split; reflexivity. Qed.

Lemma advances_now : advances Date_now.
Proof. intro w; split; reflexivity. Qed.

Lemma advances_bind {A B : Type} (c : Eff A) (k : A -> Eff B) :
  advances c -> (forall a, advances (k a)) -> advances (bind c k).
Proof.
  intros Hc Hk w. unfold bind.
  destruct (c w) as [a w'] eqn:E.
  specialize (Hc w). rewrite E in Hc. simpl in Hc.
  destruct (Hk a w') as [H1 H2]. destruct Hc as [H3 H4].
  split; congruence.
Qed.

Create HintDb adv.
#[local] Hint Resolve advances_ret advances_random advances_now : adv.

Ltac adv :=
  repeat first [ apply advances_bind; [ | intro ]
               | apply advances_ret | apply advances_random
               | apply advances_now | progress auto with adv
               | match goal with
                 | |- advances (if ?b then _ else _) => destruct b
                 end ].

Lemma advances_init (v : SysView) (isNew : bool) :
  advances (Snowflake.init v isNew).
Proof. unfold Snowflake.init. adv. Qed.

Lemma advances_hit (c : Config) (o : Obstacle.t) (f : Flake.t) :
  advances (Snowflake.hit c o f).
Proof. unfold Snowflake.hit. adv. Qed.

Lemma advances_collide (c : Config) (obs : list Obstacle.t) :
  forall f, advances (Snowflake.collide c obs f).
Proof.
  induction obs as [|o rest IH]; intro f; simpl.
  - adv.
  - apply advances_bind; [apply advances_hit | intro; apply IH].
Qed.

Lemma advances_detect (v : SysView) (f : Flake.t) :
  advances (Snowflake.detect v f).
Proof.
  unfold Snowflake.detect.
  destruct (_ >? _); [apply advances_collide | adv].
Qed.

Lemma advances_update (v : SysView) (f : Flake.t) :
  advances (Snowflake.update v f).
Proof.
  unfold Snowflake.update.
  destruct (Flake.landed f).
  - cbv zeta. destruct (_ <=? _); [apply advances_init | adv].
  - apply advances_bind; [adv | intro now].
    cbv zeta. apply advances_bind; [ | intro; apply advances_detect].
    destruct (_ >? _); [apply advances_init | adv].
Qed.

Lemma fair_advances {A : Type} (c : Eff A) (w : Oracle) :
  advances c -> fair w -> fair (snd (c w)).
Proof.
  intros Hc Hw n. destruct (Hc w) as [H _]. rewrite H. apply Hw.
Qed.

(** ** Respawn *)

Lemma fair_draw (w : Oracle) (i : nat) : fair w -> 0 <= draw_at w i < 1.
Proof. intro H; apply H. Qed.

Lemma fair_skip (n : nat) (w : Oracle) : fair w -> fair (skip n w).
Proof. intros H k; apply H. Qed.

Lemma fair_tick (w : Oracle) : fair w -> fair (tick w).
Proof. intros H k; apply H. Qed.

(** [init(true)] in closed form: five draws. *)
Lemma init_new (v : SysView) (w : Oracle) :
  Snowflake.init v true w =
  (let z := draw_at w 0 * 0.9 + 0.1 in
   Flake.mk z (sizeBase (v_config v) * z) (draw_at w 1 * v_width v) (-20)
            (gravity (v_config v) * z + draw_at w 2 * 0.5)
            ((draw_at w 3 - 0.5) * 0.5) 1.0 1.0 false (draw_at w 4 * 4),
   skip 5 w).
Proof. reflexivity. Qed.

(** [init(false)] in closed form: six draws, the third one places y. *)
Lemma init_midfield (v : SysView) (w : Oracle) :
  Snowflake.init v false w =
  (let z := draw_at w 0 * 0.9 + 0.1 in
   Flake.mk z (sizeBase (v_config v) * z) (draw_at w 1 * v_width v)
            (draw_at w 2 * v_height v)
            (gravity (v_config v) * z + draw_at w 3 * 0.5)
            ((draw_at w 4 - 0.5) * 0.5) 1.0 1.0 false (draw_at w 5 * 4),
   skip 6 w).
Proof. reflexivity. Qed.

Lemma init_new_spawn (v : SysView) (w : Oracle) :
  fair w -> new_spawn v w (fst (Snowflake.init v true w)).
Proof.
  intro Hw. rewrite init_new. cbv zeta. unfold new_spawn. simpl.
  pose proof (fair_draw w 0 Hw). pose proof (fair_draw w 2 Hw).
  pose proof (fair_draw w 3 Hw). pose proof (fair_draw w 4 Hw).
  repeat split; try reflexivity; lra.
Qed.

Lemma update_melted (v : SysView) (f : Flake.t) (w : Oracle) :
  melted v f -> Snowflake.update v f w = Snowflake.init v true w.
Proof.
  intros [Hl Hm]. unfold Snowflake.update. rewrite Hl. cbv zeta.
  replace (_ <=? _) with true; [reflexivity|].
  symmetry; apply Rleb_true; simpl; exact Hm.
Qed.

Lemma update_fell_out (v : SysView) (f : Flake.t) (w : Oracle) :
  fell_out v f w ->
  Snowflake.update v f w =
  bind (Snowflake.init v true) (Snowflake.detect v) (tick w).
Proof.
  intros [Hl Hy]. unfold Snowflake.update. rewrite Hl.
  unfold bind at 1. unfold tick.
  destruct (Date_now w) as [now w1] eqn:E. simpl in Hy |- *. cbv zeta.
  replace (_ >? _) with true; [reflexivity|].
  symmetry; apply Rgtb_true; exact Hy.
Qed.

(** C1. Whenever a particle respawns, at the bottom edge while falling or
    when its melt opacity reaches zero while landed, [init(true)] is run on
    it: y = -20, z = r*0.9 + 0.1 in [0.1, 1), size = sizeBase*z,
    x = r*width, vy = gravity*z + r*0.5, vx = (r - 0.5)*0.5 in
    [-0.25, 0.25), both opacities 1, landed = false, stackOffset = r*4 in
    [0, 4), each r a fresh draw.  After a melt the update returns that
    flake; at the bottom edge it is the flake handed to the collision
    check of the same update. *)
Theorem C1_respawn_is_new_spawn (v : SysView) (f : Flake.t) (w : Oracle) :
  fair w ->
  melted v f \/ fell_out v f w ->
  exists (fresh : Flake.t) (w1 w2 : Oracle),
    w1 = (if Flake.landed f then w else tick w)
    /\ Snowflake.init v true w1 = (fresh, w2)
    /\ new_spawn v w1 fresh
    /\ Snowflake.update v f w =
       (if Flake.landed f then (fresh, w2) else Snowflake.detect v fresh w2).
Proof.
  intros Hw [Hm | Hf].
  - exists (fst (Snowflake.init v true w)), w, (skip 5 w).
    pose proof (update_melted v f w Hm) as Hu.
    destruct Hm as [Hl Hm]. rewrite Hl.
    split; [reflexivity|]. split; [reflexivity|].
    split; [apply init_new_spawn; exact Hw | exact Hu].
  - exists (fst (Snowflake.init v true (tick w))), (tick w), (skip 5 (tick w)).
    pose proof (update_fell_out v f w Hf) as Hu.
    destruct Hf as [Hl Hy]. rewrite Hl.
    split; [reflexivity|]. split; [reflexivity|].
    split; [apply init_new_spawn; apply fair_tick; exact Hw | exact Hu].
Qed.

Lemma fair_half : fair half.
Proof. intro n; simpl; lra. Qed.

Lemma C1_witness :
  exists (fresh : Flake.t) (w1 w2 : Oracle),
    w1 = (if Flake.landed almost_melted then half else tick half)
    /\ Snowflake.init view0 true w1 = (fresh, w2)
    /\ new_spawn view0 w1 fresh
    /\ Snowflake.update view0 almost_melted half =
       (if Flake.landed almost_melted then (fresh, w2)
        else Snowflake.detect view0 fresh w2).
Proof.
  apply (C1_respawn_is_new_spawn view0 almost_melted half).
  - exact fair_half.
  - left. split; [reflexivity | simpl; lra].
Defined.

(** ** Melting *)

(** C2 as stated fails: a landed flake with meltAlpha = 0.005 > 0 and the
    default meltSpeed 0.005 is respawned by the step, so its y moves from
    200 to -20. *)
Lemma C2_counterexample :
  Flake.landed almost_melted = true
  /\ Flake.meltAlpha almost_melted > 0
  /\ Flake.y (fst (Snowflake.update view0 almost_melted half))
     <> Flake.y almost_melted.
Proof.
  split; [reflexivity|]. split; [simpl; lra|].
  rewrite update_melted by (split; [reflexivity | simpl; lra]).
  rewrite init_new. simpl. lra.
Qed.

(** A landed flake that is not yet melted only melts. *)
Lemma update_melting (v : SysView) (f : Flake.t) (w : Oracle) :
  Flake.landed f = true ->
  Flake.meltAlpha f - meltSpeed (v_config v) > 0 ->
  Snowflake.update v f w =
  (Flake.set_meltAlpha (Flake.meltAlpha f - meltSpeed (v_config v)) f, w).
Proof.
  intros Hl Hm. unfold Snowflake.update. rewrite Hl. cbv zeta.
  replace (_ <=? _) with false; [reflexivity|].
  symmetry; apply Rleb_false; simpl; lra.
Qed.

(** C2, amended. A landed flake whose melt opacity is still positive after
    the decrement (meltAlpha - meltSpeed > 0) is left by one update step
    with every field but meltAlpha unchanged, position included, and with
    meltAlpha lowered by exactly meltSpeed; no random number and no clock
    value is consumed. *)
Theorem C2_landed_step_melts_only (v : SysView) (f : Flake.t) (w : Oracle) :
  Flake.landed f = true ->
  Flake.meltAlpha f - meltSpeed (v_config v) > 0 ->
  Snowflake.update v f w =
  (Flake.mk (Flake.z f) (Flake.size f) (Flake.x f) (Flake.y f) (Flake.vy f)
            (Flake.vx f) (Flake.alpha f)
            (Flake.meltAlpha f - meltSpeed (v_config v))
            (Flake.landed f) (Flake.stackOffset f), w).
Proof.
  intros Hl Hm. rewrite update_melting by assumption. reflexivity.
Qed.

Lemma C2_witness :
  Snowflake.update view0 just_landed half =
  (Flake.mk 0.5 1.5 100 200 0.6 0 1.0 (1.0 - 0.005) true 2, half).
Proof.
  apply (C2_landed_step_melts_only view0 just_landed half).
  - reflexivity.
  - simpl; lra.
Defined.

(** ** The collision loop *)

Lemma same_body_refl (f : Flake.t) : same_body f f.
Proof. repeat split. Qed.

Lemma same_body_trans (f g h : Flake.t) :
  same_body f g -> same_body g h -> same_body f h.
Proof. unfold same_body; intuition congruence. Qed.

Lemma same_body_snap (o : Obstacle.t) (f : Flake.t) : same_body f (snap o f).
Proof. repeat split. Qed.

Lemma landY_same_body (o : Obstacle.t) (f g : Flake.t) :
  same_body f g -> Snowflake.landY o g = Snowflake.landY o f.
Proof.
  unfold same_body, Snowflake.landY; intros H.
  destruct H as (_ & -> & _ & _ & _ & _ & _ & ->). reflexivity.
Qed.

(** The three outcomes of one loop iteration. *)
Lemma hit_cases (c : Config) (o : Obstacle.t) (f : Flake.t) (w : Oracle) :
  (Snowflake.qualifies o f = false /\ Snowflake.hit c o f w = (f, w))
  \/ (Snowflake.qualifies o f = true /\ stickiness c <= draw_at w 0
      /\ Snowflake.hit c o f w = (f, skip 1 w))
  \/ (Snowflake.qualifies o f = true /\ draw_at w 0 < stickiness c
      /\ Snowflake.hit c o f w = (snap o f, skip 1 w)).
Proof.
  unfold Snowflake.hit.
  destruct (Snowflake.qualifies o f); [right | left; split; reflexivity].
  unfold bind, Math_random.
  change (rand_tape w (rand_pos w)) with (draw_at w 0).
  change (mkOracle (rand_tape w) (S (rand_pos w)) (clock_tape w) (clock_pos w))
    with (skip 1 w).
  destruct (draw_at w 0 <? stickiness c) eqn:E.
  - right. apply Rltb_true in E.
    split; [reflexivity|]. split; [exact E | reflexivity].
  - left. apply Rltb_false in E.
    split; [reflexivity|]. split; [exact E | reflexivity].
Qed.

Lemma hit_fair (c : Config) (o : Obstacle.t) (f : Flake.t) (w : Oracle) :
  fair w -> fair (snd (Snowflake.hit c o f w)).
Proof. apply fair_advances, advances_hit. Qed.

Lemma hit_same_body (c : Config) (o : Obstacle.t) (f : Flake.t) (w : Oracle) :
  same_body f (fst (Snowflake.hit c o f w)).
Proof.
  destruct (hit_cases c o f w) as [[_ ->] | [(_ & _ & ->) | (_ & _ & ->)]];
    simpl; auto using same_body_refl, same_body_snap.
Qed.

Lemma collide_same_body (c : Config) (obs : list Obstacle.t) :
  forall f w, same_body f (fst (Snowflake.collide c obs f w)).
Proof.
  induction obs as [|o rest IH]; intros f w; simpl.
  - apply same_body_refl.
  - unfold bind. pose proof (hit_same_body c o f w) as H.
    destruct (Snowflake.hit c o f w) as [g w']. simpl in H.
    eapply same_body_trans; [exact H | apply IH].
Qed.

(** Nothing in the loop clears [landed]. *)
Lemma collide_keeps_landed (c : Config) (obs : list Obstacle.t) :
  forall f w, Flake.landed f = true ->
              Flake.landed (fst (Snowflake.collide c obs f w)) = true.
Proof.
  induction obs as [|o rest IH]; intros f w Hl; simpl; [exact Hl|].
  unfold bind.
  destruct (hit_cases c o f w) as [[_ ->] | [(_ & _ & ->) | (_ & _ & ->)]];
    apply IH; auto.
Qed.

(** A flake that leaves the loop landed but did not enter it landed sits
    on the landing line of one of the obstacles. *)
Lemma collide_y_from_list (c : Config) (obs : list Obstacle.t) :
  forall f w,
    let f' := fst (Snowflake.collide c obs f w) in
    f' = f
    \/ exists o, In o obs /\ f' = snap o f.
Proof.
  induction obs as [|o rest IH]; intros f w; simpl; [left; reflexivity|].
  unfold bind.
  destruct (hit_cases c o f w) as [[_ ->] | [(_ & _ & ->) | (_ & _ & ->)]].
  - destruct (IH f w) as [H | (o' & Hin & H)]; [left; exact H|].
    right; exists o'; split; [right; exact Hin | exact H].
  - destruct (IH f (skip 1 w)) as [H | (o' & Hin & H)]; [left; exact H|].
    right; exists o'; split; [right; exact Hin | exact H].
  - right.
    destruct (IH (snap o f) (skip 1 w)) as [H | (o' & Hin & H)].
    + exists o; split; [left; reflexivity | exact H].
    + exists o'; split; [right; exact Hin|].
      rewrite H. unfold snap, Snowflake.landY. reflexivity.
Qed.

(** Obstacles that do not qualify leave the flake alone. *)
Lemma collide_none_qualify (c : Config) (obs : list Obstacle.t) :
  forall f w,
    (forall o, In o obs -> Snowflake.qualifies o f = false) ->
    Snowflake.collide c obs f w = (f, w).
Proof.
  induction obs as [|o rest IH]; intros f w H; simpl; [reflexivity|].
  unfold bind, Snowflake.hit. rewrite (H o (or_introl eq_refl)).
  apply IH. intros o' Hin; apply H; right; exact Hin.
Qed.

(** A snapped flake still qualifies for the obstacle it sits on, and a
    second hit on it changes nothing. *)
Lemma snap_idempotent (o : Obstacle.t) (f : Flake.t) : snap o (snap o f) = snap o f.
Proof. reflexivity. Qed.

(** With stickiness 1 every draw sticks: once an obstacle of the list
    qualifies, the flake leaves the loop landed. *)
Lemma collide_sure (c : Config) (obs : list Obstacle.t) (o : Obstacle.t) :
  stickiness c = 1 ->
  forall f w,
    fair w -> In o obs -> Snowflake.qualifies o f = true ->
    Flake.landed (fst (Snowflake.collide c obs f w)) = true.
Proof.
  intro Hs.
  induction obs as [|o' rest IH]; intros f w Hw Hin Hq; [destruct Hin|].
  simpl. unfold bind.
  pose proof (fair_draw w 0 Hw) as Hd.
  destruct (hit_cases c o' f w) as [[Hn ->] | [(_ & Hge & _) | (_ & _ & ->)]].
  - destruct Hin as [-> | Hin]; [congruence|]. apply IH; assumption.
  - rewrite Hs in Hge. lra.
  - apply collide_keeps_landed. reflexivity.
Qed.

(** A flake sitting on [o] stays there when no other obstacle of the list
    qualifies for it. *)
Lemma collide_settled (c : Config) (obs : list Obstacle.t) (o : Obstacle.t)
    (f : Flake.t) :
  (forall o', In o' obs ->
              o' = o \/ Snowflake.qualifies o' (snap o f) = false) ->
  forall w, fst (Snowflake.collide c obs (snap o f) w) = snap o f.
Proof.
  induction obs as [|o' rest IH]; intros H w; [reflexivity|].
  simpl. unfold bind.
  assert (Hrest : forall o'', In o'' rest ->
            o'' = o \/ Snowflake.qualifies o'' (snap o f) = false)
    by (intros; apply H; right; assumption).
  destruct (hit_cases c o' (snap o f) w)
    as [[_ ->] | [(_ & _ & ->) | (Hq & _ & ->)]]; try (apply IH; exact Hrest).
  destruct (H o' (or_introl eq_refl)) as [-> | Hn]; [|congruence].
  rewrite snap_idempotent. apply IH; exact Hrest.
Qed.

Lemma collide_only (c : Config) (obs : list Obstacle.t) (o : Obstacle.t) :
  stickiness c = 1 ->
  forall f w,
    fair w -> In o obs -> Snowflake.qualifies o f = true ->
    (forall o', In o' obs ->
       o' = o \/ (Snowflake.qualifies o' f = false
                  /\ Snowflake.qualifies o' (snap o f) = false)) ->
    fst (Snowflake.collide c obs f w) = snap o f.
Proof.
  intro Hs.
  induction obs as [|o' rest IH]; intros f w Hw Hin Hq H; [destruct Hin|].
  simpl. unfold bind.
  pose proof (fair_draw w 0 Hw) as Hd.
  assert (Hrest : forall o'', In o'' rest ->
            o'' = o \/ (Snowflake.qualifies o'' f = false
                        /\ Snowflake.qualifies o'' (snap o f) = false))
    by (intros; apply H; right; assumption).
  destruct (hit_cases c o' f w) as [[Hn ->] | [(_ & Hge & _) | (Hq' & _ & ->)]].
  - destruct Hin as [-> | Hin]; [congruence|]. apply IH; assumption.
  - rewrite Hs in Hge. lra.
  - destruct (H o' (or_introl eq_refl)) as [-> | [Hn _]]; [|congruence].
    apply collide_settled. intros o'' Hi.
    destruct (Hrest o'' Hi) as [-> | [_ Hn]]; [left; reflexivity | right; exact Hn].
Qed.

(** ** Integration and wrapping *)

Lemma integrate_body (v : SysView) (now : R) (f : Flake.t) :
  let g := Snowflake.integrate v now f in
  Flake.z g = Flake.z f /\ Flake.size g = Flake.size f
  /\ Flake.landed g = Flake.landed f
  /\ Flake.stackOffset g = Flake.stackOffset f
  /\ Flake.vy g = Flake.vy f /\ Flake.vx g = Flake.vx f
  /\ Flake.alpha g = Flake.alpha f /\ Flake.meltAlpha g = Flake.meltAlpha f.
Proof.
  unfold Snowflake.integrate. cbv zeta.
  destruct (Snowflake.repel _ _ _) as [dx dy]. repeat split.
Qed.

Lemma wrap_body (v : SysView) (f : Flake.t) :
  let g := Snowflake.wrap v f in
  Flake.z g = Flake.z f /\ Flake.size g = Flake.size f
  /\ Flake.y g = Flake.y f
  /\ Flake.landed g = Flake.landed f
  /\ Flake.stackOffset g = Flake.stackOffset f
  /\ Flake.vy g = Flake.vy f /\ Flake.vx g = Flake.vx f
  /\ Flake.alpha g = Flake.alpha f /\ Flake.meltAlpha g = Flake.meltAlpha f.
Proof.
  unfold Snowflake.wrap. cbv zeta.
  destruct (Flake.x f >? v_width v + 5); simpl;
    destruct (_ <? -5); repeat split.
Qed.

(** Inside the band [[-5, width + 5]] nothing is wrapped. *)
Lemma wrap_inside (v : SysView) (f : Flake.t) :
  -5 <= Flake.x f <= v_width v + 5 -> Snowflake.wrap v f = f.
Proof.
  intros [H1 H2]. unfold Snowflake.wrap. cbv zeta.
  rewrite (proj2 (Rgtb_false _ _)) by lra.
  rewrite (proj2 (Rltb_false _ _)) by lra. reflexivity.
Qed.

(** More than 5 past the right edge the flake is put at x = -5. *)
Lemma wrap_past_right (v : SysView) (f : Flake.t) :
  Flake.x f > v_width v + 5 -> Snowflake.wrap v f = Flake.set_x (-5) f.
Proof.
  intro H. unfold Snowflake.wrap. cbv zeta.
  rewrite (proj2 (Rgtb_true _ _) H).
  change (Flake.x (Flake.set_x (-5) f)) with (-5).
  rewrite (proj2 (Rltb_false (-5) (-5))) by lra. reflexivity.
Qed.

(** A falling flake that stays above the bottom edge goes from the move
    straight to the collision check. *)
Lemma update_falling (v : SysView) (f : Flake.t) (w : Oracle) :
  Flake.landed f = false ->
  Flake.y (Snowflake.move v (fst (Date_now w)) f) <= v_height v ->
  Snowflake.update v f w =
  Snowflake.detect v (Snowflake.move v (fst (Date_now w)) f) (tick w).
Proof.
  intros Hl Hy. unfold Snowflake.update. rewrite Hl.
  unfold bind at 1. unfold tick.
  destruct (Date_now w) as [now w1] eqn:E. simpl in Hy |- *. cbv zeta.
  rewrite (proj2 (Rgtb_false _ _)) by exact Hy. reflexivity.
Qed.

Lemma qualifies_true (o : Obstacle.t) (f : Flake.t) :
  Snowflake.qualifies o f = true <->
  Obstacle.left o < Flake.x f < Obstacle.right o
  /\ Snowflake.landY o f <= Flake.y f <= Snowflake.landY o f + 10.
Proof.
  unfold Snowflake.qualifies. rewrite !andb_true_iff.
  rewrite Rgtb_true, Rltb_true, Rgeb_true, Rleb_true. lra.
Qed.

(** With the mouse switched off, step 3 does nothing. *)
Lemma repel_off (v : SysView) (f : Flake.t) (d : R * R) :
  mouseInteraction (v_config v) = false -> Snowflake.repel v f d = d.
Proof.
  intro H. unfold Snowflake.repel. cbv zeta. destruct d as [dx dy].
  rewrite H. reflexivity.
Qed.

Lemma integrate_off (v : SysView) (now : R) (f : Flake.t) :
  mouseInteraction (v_config v) = false ->
  Snowflake.integrate v now f =
  Flake.set_y (Flake.y f + Flake.vy f)
    (Flake.set_x
       (Flake.x f
        + (Flake.vx f + wind (v_config v) * Flake.z f
           + sin (Flake.y f * 0.01 + now * 0.002) * 0.5 * Flake.z f)) f).
Proof.
  intro H. unfold Snowflake.integrate. cbv zeta.
  rewrite repel_off by exact H. reflexivity.
Qed.

(** ** Landing with stickiness 1 *)

(** C3 as stated fails, in two ways.  At the bottom edge: the flake
    integrates to y = 600.6, inside the window [600.25, 610.25] of the
    obstacle and inside its span, but 600.6 > height, so the step respawns
    it first and the collision check sees the fresh flake at y = -20: it
    is not landed.  At the right edge: the flake integrates to an x
    between 805.1 and 805.6, inside the span (700, 900) of the obstacle
    and inside its window, but x > width + 5, so the step first wraps it
    to x = -5, outside the span: it is not landed. *)
Lemma C3_counterexample :
  (let g := Snowflake.integrate floor_view (fst (Date_now half)) at_floor in
   Flake.landed at_floor = false
   /\ stickiness (v_config floor_view) = 1
   /\ Flake.z at_floor = 0.5
   /\ In floor_obs (v_obstacles floor_view)
   /\ Obstacle.left floor_obs < Flake.x g < Obstacle.right floor_obs
   /\ Snowflake.landY floor_obs g <= Flake.y g
      <= Snowflake.landY floor_obs g + 10
   /\ Flake.landed (fst (Snowflake.update floor_view at_floor half)) = false)
  /\ (let g := Snowflake.integrate ledge_view (fst (Date_now half)) at_edge in
      Flake.landed at_edge = false
      /\ stickiness (v_config ledge_view) = 1
      /\ Flake.z at_edge = 0.5
      /\ In ledge (v_obstacles ledge_view)
      /\ Obstacle.left ledge < Flake.x g < Obstacle.right ledge
      /\ Snowflake.landY ledge g <= Flake.y g <= Snowflake.landY ledge g + 10
      /\ Flake.y g <= v_height ledge_view
      /\ Flake.landed (fst (Snowflake.update ledge_view at_edge half)) = false).
Proof.
  split.
  - cbv zeta.
    rewrite integrate_off by reflexivity.
    pose proof (SIN_bound (Flake.y at_floor * 0.01
                           + fst (Date_now half) * 0.002)) as Hs.
    split; [reflexivity|]. split; [reflexivity|]. split; [reflexivity|].
    split; [left; reflexivity|].
    split; [simpl in *; lra|].
    split; [unfold Snowflake.landY; simpl; lra|].
    rewrite update_fell_out.
    + unfold bind. rewrite init_new. cbv zeta.
      unfold Snowflake.detect.
      match goal with |- context [?a >? ?b] =>
        replace (a >? b) with true by (symmetry; apply Rgtb_true; simpl; lra)
      end.
      rewrite collide_none_qualify; [reflexivity|].
      intros o [<- | []].
      destruct (Snowflake.qualifies floor_obs _) eqn:E; [|reflexivity].
      apply qualifies_true in E. unfold Snowflake.landY in E. simpl in E. lra.
    + split; [reflexivity|].
      destruct (wrap_body floor_view
                  (Snowflake.integrate floor_view (fst (Date_now half)) at_floor))
        as (_ & _ & Hy & _).
      unfold Snowflake.move. rewrite Hy.
      rewrite integrate_off by reflexivity. simpl. lra.
  - cbv zeta.
    pose proof (SIN_bound (Flake.y at_edge * 0.01
                           + fst (Date_now half) * 0.002)) as Hs.
    assert (Hg : Snowflake.integrate ledge_view (fst (Date_now half)) at_edge
                 = Flake.set_y (Flake.y at_edge + Flake.vy at_edge)
                     (Flake.set_x
                        (Flake.x at_edge
                         + (Flake.vx at_edge
                            + wind (v_config ledge_view) * Flake.z at_edge
                            + sin (Flake.y at_edge * 0.01
                                   + fst (Date_now half) * 0.002)
                              * 0.5 * Flake.z at_edge)) at_edge))
      by (apply integrate_off; reflexivity).
    assert (Hx : Flake.x (Snowflake.integrate ledge_view (fst (Date_now half))
                            at_edge) > v_width ledge_view + 5)
      by (rewrite Hg; simpl in *; lra).
    assert (Hm : Snowflake.move ledge_view (fst (Date_now half)) at_edge
                 = Flake.set_x (-5)
                     (Snowflake.integrate ledge_view (fst (Date_now half))
                        at_edge))
      by (unfold Snowflake.move; apply wrap_past_right; exact Hx).
    split; [reflexivity|]. split; [reflexivity|]. split; [reflexivity|].
    split; [left; reflexivity|].
    split; [rewrite Hg; simpl in *; lra|].
    split; [rewrite Hg; unfold Snowflake.landY; simpl; lra|].
    split; [rewrite Hg; simpl; lra|].
    rewrite update_falling; [|reflexivity | rewrite Hm, Hg; simpl; lra].
    rewrite Hm. unfold Snowflake.detect.
    destruct (_ >? _); [|rewrite Hg; reflexivity].
    rewrite collide_none_qualify; [rewrite Hg; reflexivity|].
    intros o [<- | []].
    destruct (Snowflake.qualifies ledge _) eqn:E; [|reflexivity].
    apply qualifies_true in E. destruct E as [[E _] _]. simpl in E. lra.
Qed.

(** C3, amended. A FALLING particle with stickiness = 1.0 and z = 0.5 whose
    position after the move (integration, then the horizontal wrap) is
    strictly inside an obstacle's span and inside its window
    [landY, landY+10], and is not past the bottom edge (y <= height), is
    LANDED after that one update step, on the landing line of an obstacle
    of the current set; it is this obstacle's landY when every other
    obstacle fails to qualify both for the moved and for the snapped
    position. *)
Theorem C3_sticky_landing (v : SysView) (f : Flake.t) (w : Oracle)
    (obs : Obstacle.t) :
  let g := Snowflake.move v (fst (Date_now w)) f in
  fair w ->
  Flake.landed f = false ->
  stickiness (v_config v) = 1 ->
  Flake.z f = 0.5 ->
  In obs (v_obstacles v) ->
  Obstacle.left obs < Flake.x g < Obstacle.right obs ->
  Snowflake.landY obs g <= Flake.y g <= Snowflake.landY obs g + 10 ->
  Flake.y g <= v_height v ->
  let f' := fst (Snowflake.update v f w) in
  Flake.landed f' = true
  /\ (exists o, In o (v_obstacles v) /\ f' = snap o g)
  /\ ((forall o, In o (v_obstacles v) ->
         o = obs \/ (Snowflake.qualifies o g = false
                     /\ Snowflake.qualifies o (snap obs g) = false)) ->
      f' = snap obs g).
Proof.
  intros g Hw Hl Hs Hz Hin Hx Hy Hbot f'.
  assert (Hq : Snowflake.qualifies obs g = true)
    by (apply qualifies_true; split; assumption).
  assert (Hgz : Flake.z g = Flake.z f).
  { subst g. unfold Snowflake.move.
    destruct (wrap_body v (Snowflake.integrate v (fst (Date_now w)) f))
      as (Hwz & _).
    destruct (integrate_body v (fst (Date_now w)) f) as (Hiz & _).
    rewrite Hwz. exact Hiz. }
  assert (Hu : Snowflake.update v f w
               = Snowflake.collide (v_config v) (v_obstacles v) g (tick w)).
  { rewrite update_falling by assumption. fold g.
    unfold Snowflake.detect.
    rewrite (proj2 (Rgtb_true _ _)) by (rewrite Hgz, Hz; lra). reflexivity. }
  subst f'. rewrite Hu.
  assert (Hland : Flake.landed
            (fst (Snowflake.collide (v_config v) (v_obstacles v) g (tick w)))
            = true)
    by (apply (collide_sure _ _ obs); auto using fair_tick).
  split; [exact Hland|]. split.
  - destruct (collide_y_from_list (v_config v) (v_obstacles v) g (tick w))
      as [E | E]; [|exact E].
    rewrite E in Hland.
    assert (Hgl : Flake.landed g = Flake.landed f).
    { subst g. unfold Snowflake.move.
      destruct (wrap_body v (Snowflake.integrate v (fst (Date_now w)) f))
        as (_ & _ & _ & Hwl & _).
      destruct (integrate_body v (fst (Date_now w)) f) as (_ & _ & Hil & _).
      rewrite Hwl. exact Hil. }
    congruence.
  - intro Hothers. apply collide_only; auto using fair_tick.
Qed.

(** The witness wraps: the flake integrates to an x past 805, is put at
    x = -5, inside the span (-10, 900), and lands there. *)
Lemma C3_witness :
  let g := Snowflake.move wide_shelf_view (fst (Date_now half)) at_edge in
  let f' := fst (Snowflake.update wide_shelf_view at_edge half) in
  Flake.landed f' = true
  /\ (exists o, In o (v_obstacles wide_shelf_view) /\ f' = snap o g)
  /\ ((forall o, In o (v_obstacles wide_shelf_view) ->
         o = wide_shelf \/ (Snowflake.qualifies o g = false
                            /\ Snowflake.qualifies o (snap wide_shelf g) = false)) ->
      f' = snap wide_shelf g).
Proof.
  pose proof (SIN_bound (Flake.y at_edge * 0.01
                         + fst (Date_now half) * 0.002)) as Hs.
  assert (Hg : Snowflake.integrate wide_shelf_view (fst (Date_now half)) at_edge
               = Flake.set_y (Flake.y at_edge + Flake.vy at_edge)
                   (Flake.set_x
                      (Flake.x at_edge
                       + (Flake.vx at_edge
                          + wind (v_config wide_shelf_view) * Flake.z at_edge
                          + sin (Flake.y at_edge * 0.01
                                 + fst (Date_now half) * 0.002)
                            * 0.5 * Flake.z at_edge)) at_edge))
    by (apply integrate_off; reflexivity).
  assert (Hx : Flake.x (Snowflake.integrate wide_shelf_view
                          (fst (Date_now half)) at_edge)
               > v_width wide_shelf_view + 5)
    by (rewrite Hg; simpl in *; lra).
  assert (Hm : Snowflake.move wide_shelf_view (fst (Date_now half)) at_edge
               = Flake.set_x (-5)
                   (Snowflake.integrate wide_shelf_view (fst (Date_now half))
                      at_edge))
    by (unfold Snowflake.move; apply wrap_past_right; exact Hx).
  apply (C3_sticky_landing wide_shelf_view at_edge half wide_shelf).
  - exact fair_half.
  - reflexivity.
  - reflexivity.
  - reflexivity.
  - left; reflexivity.
  - rewrite Hm, Hg; simpl; lra.
  - rewrite Hm, Hg; unfold Snowflake.landY; simpl; lra.
  - rewrite Hm, Hg; simpl; lra.
Defined.

(** ** More than one qualifying obstacle *)

Lemma hit_stick (c : Config) (o : Obstacle.t) (f : Flake.t) (w : Oracle) :
  Snowflake.qualifies o f = true -> draw_at w 0 < stickiness c ->
  Snowflake.hit c o f w = (snap o f, skip 1 w).
Proof.
  intros Hq Hd.
  destruct (hit_cases c o f w) as [[Hn _] | [(_ & Hge & _) | (_ & _ & E)]];
    [congruence | lra | exact E].
Qed.

Lemma hit_miss (c : Config) (o : Obstacle.t) (f : Flake.t) (w : Oracle) :
  Snowflake.qualifies o f = false -> Snowflake.hit c o f w = (f, w).
Proof. intro Hq. unfold Snowflake.hit. rewrite Hq. reflexivity. Qed.

Lemma collide_app (c : Config) (pre post : list Obstacle.t) :
  forall f w,
    Snowflake.collide c (pre ++ post) f w =
    bind (Snowflake.collide c pre f) (Snowflake.collide c post) w.
Proof.
  induction pre as [|o pre IH]; intros f w; simpl.
  - unfold bind, ret. reflexivity.
  - unfold bind. destruct (Snowflake.hit c o f w) as [g w1].
    rewrite IH. reflexivity.
Qed.

(** C5 as stated fails: [lower] is the first qualifying obstacle of
    [[lower; upper]] and sticks, yet the flake ends on the landing line of
    [upper], which is visited afterwards and qualifies for the snapped
    flake. *)
Lemma C5_counterexample :
  Snowflake.qualifies lower between = true
  /\ Snowflake.qualifies upper between = true
  /\ draw_at half 0 < stickiness sticky
  /\ Flake.y (fst (Snowflake.collide sticky [lower; upper] between half))
     = Snowflake.landY upper between
  /\ Snowflake.landY upper between <> Snowflake.landY lower between.
Proof.
  assert (Hl : Snowflake.qualifies lower between = true)
    by (apply qualifies_true; unfold Snowflake.landY; simpl; lra).
  assert (Hu : Snowflake.qualifies upper between = true)
    by (apply qualifies_true; unfold Snowflake.landY; simpl; lra).
  assert (Hu' : Snowflake.qualifies upper (snap lower between) = true)
    by (apply qualifies_true; unfold snap, Snowflake.landY; simpl; lra).
  split; [exact Hl|]. split; [exact Hu|]. split; [simpl; lra|]. split.
  - simpl. unfold bind.
    rewrite hit_stick by (try exact Hl; simpl; lra).
    rewrite hit_stick by (try exact Hu'; simpl; lra).
    reflexivity.
  - unfold Snowflake.landY; simpl; lra.
Qed.

(** C5, amended. In a single frame's collision check every obstacle is
    visited in iteration order and tested against the particle as it is
    then.  When the first qualifying obstacle sticks, the particle is
    LANDED and snapped to that obstacle's landY, and the loop goes on with
    the snapped particle: the first hit's outcome stands when no later
    obstacle qualifies for the snapped particle, and a later obstacle that
    does qualify and sticks re-snaps y to its own landY. *)
Theorem C5_later_hits_resnap (c : Config) (pre rest : list Obstacle.t)
    (o : Obstacle.t) (f : Flake.t) (w : Oracle) :
  (forall p, In p pre -> Snowflake.qualifies p f = false) ->
  Snowflake.qualifies o f = true ->
  draw_at w 0 < stickiness c ->
  let out := Snowflake.collide c (pre ++ o :: rest) f w in
  out = Snowflake.collide c rest (snap o f) (skip 1 w)
  /\ Flake.landed (fst out) = true
  /\ ((forall o', In o' rest -> Snowflake.qualifies o' (snap o f) = false) ->
      out = (snap o f, skip 1 w))
  /\ (forall o' rest',
        rest = o' :: rest' ->
        Snowflake.qualifies o' (snap o f) = true ->
        draw_at w 1 < stickiness c ->
        (forall o'', In o'' rest' ->
                     Snowflake.qualifies o'' (snap o' f) = false) ->
        out = (snap o' f, skip 2 w)).
Proof.
  intros Hpre Hq Hd out.
  assert (E : out = Snowflake.collide c rest (snap o f) (skip 1 w)).
  { subst out. rewrite collide_app. unfold bind.
    rewrite collide_none_qualify by exact Hpre.
    simpl. unfold bind. rewrite hit_stick by assumption. reflexivity. }
  split; [exact E|]. rewrite E. split; [|split].
  - apply collide_keeps_landed. reflexivity.
  - intro Hnone. apply collide_none_qualify. exact Hnone.
  - intros o' rest' -> Hq' Hd' Hnone. simpl. unfold bind.
    rewrite hit_stick by assumption.
    change (snap o' (snap o f)) with (snap o' f).
    apply collide_none_qualify. exact Hnone.
Qed.

Lemma C5_witness :
  let out := Snowflake.collide sticky ([] ++ lower :: [upper]) between half in
  out = Snowflake.collide sticky [upper] (snap lower between) (skip 1 half)
  /\ Flake.landed (fst out) = true
  /\ ((forall o', In o' [upper] ->
                  Snowflake.qualifies o' (snap lower between) = false) ->
      out = (snap lower between, skip 1 half))
  /\ (forall o' rest',
        [upper] = o' :: rest' ->
        Snowflake.qualifies o' (snap lower between) = true ->
        draw_at half 1 < stickiness sticky ->
        (forall o'', In o'' rest' ->
                     Snowflake.qualifies o'' (snap o' between) = false) ->
        out = (snap o' between, skip 2 half)).
Proof.
  apply (C5_later_hits_resnap sticky [] [upper] lower between half).
  - intros p [].
  - apply qualifies_true; unfold Snowflake.landY; simpl; lra.
  - simpl; lra.
Defined.

(** ** Respawn at the bottom edge, then the collision check *)

Lemma at_floor_falls_out : fell_out lintel_view at_floor half.
Proof.
  split; [reflexivity|].
  destruct (wrap_body lintel_view
              (Snowflake.integrate lintel_view (fst (Date_now half)) at_floor))
    as (_ & _ & Hy & _).
  unfold Snowflake.move. rewrite Hy.
  rewrite integrate_off by reflexivity. simpl. lra.
Qed.

Lemma at_floor_respawns_landed :
  Snowflake.update lintel_view at_floor half =
  (snap lintel (fst (Snowflake.init lintel_view true (tick half))),
   skip 6 (tick half)).
Proof.
  rewrite update_fell_out by exact at_floor_falls_out.
  unfold bind. rewrite init_new. cbv zeta. unfold Snowflake.detect.
  match goal with |- context [?a >? ?b] =>
    replace (a >? b) with true by (symmetry; apply Rgtb_true; simpl; lra) end.
  simpl Snowflake.collide. unfold bind.
  rewrite hit_stick; [reflexivity | | simpl; lra].
  apply qualifies_true. unfold Snowflake.landY. simpl. lra.
Qed.

(** C10. A bottom-edge respawn does not end the update: the flake made by
    [init(true)] is handed to the collision check of the same call, and
    there is a call in which the flake both respawns and comes out LANDED.
    A melt respawn returns the fresh flake at once: not landed, and the
    clock is not even read. *)
Theorem C10_respawn_then_collision :
  (forall v f w,
      fell_out v f w ->
      Snowflake.update v f w =
      (let (fresh, w') := Snowflake.init v true (tick w) in
       Snowflake.detect v fresh w'))
  /\ (exists v f w,
         fair w /\ fell_out v f w
         /\ Flake.landed (fst (Snowflake.update v f w)) = true
         /\ Flake.y (fst (Snowflake.update v f w)) <> -20)
  /\ (forall v f w,
         melted v f ->
         Snowflake.update v f w = Snowflake.init v true w
         /\ Flake.landed (fst (Snowflake.update v f w)) = false
         /\ Flake.y (fst (Snowflake.update v f w)) = -20
         /\ clock_pos (snd (Snowflake.update v f w)) = clock_pos w).
Proof.
  split; [|split].
  - intros v f w H. rewrite update_fell_out by exact H. reflexivity.
  - exists lintel_view, at_floor, half.
    split; [exact fair_half|]. split; [exact at_floor_falls_out|].
    rewrite at_floor_respawns_landed. split; [reflexivity|].
    rewrite init_new. unfold snap, Snowflake.landY. simpl. lra.
  - intros v f w H. rewrite update_melted by exact H.
    rewrite init_new. repeat split.
Qed.

(** ** The mouse switched off *)

(** C8. With mouseInteraction = false the pointer position has no effect:
    two update steps that differ only in the mouse position give the same
    flake and leave the same oracle; and [bindEvents] registers no
    mousemove listener, so the stored position never changes either. *)
Theorem C8_mouse_off_is_ignored (c : Config) (width height : R)
    (obstacles : list Obstacle.t) (m1 m2 : Mouse.t) (f : Flake.t)
    (w : Oracle) :
  mouseInteraction c = false ->
  Snowflake.update (mkView c width height m1 obstacles) f w
  = Snowflake.update (mkView c width height m2 obstacles) f w
  /\ forall wd, System.config (sys wd) = Some c ->
       listeners (dom (SnowSystem.bindEvents wd))
       = listeners (dom wd) ++ [OnResize; OnScroll].
Proof.
  intro H. split.
  - unfold Snowflake.update, Snowflake.move.
    destruct (Flake.landed f); [reflexivity|].
    unfold bind at 1 3. destruct (Date_now w) as [now w1].
    rewrite !integrate_off by exact H. reflexivity.
  - intros wd Hc. unfold SnowSystem.bindEvents. cbv zeta.
    rewrite Hc, H. simpl. reflexivity.
Qed.

Lemma C8_witness :
  Snowflake.update (mkView sticky 800 600 (Mouse.mk 401 301) [shelf])
                   drifting half
  = Snowflake.update (mkView sticky 800 600 (Mouse.mk (-999) (-999)) [shelf])
                     drifting half
  /\ forall wd, System.config (sys wd) = Some sticky ->
       listeners (dom (SnowSystem.bindEvents wd))
       = listeners (dom wd) ++ [OnResize; OnScroll].
Proof.
  apply (C8_mouse_off_is_ignored sticky 800 600 [shelf] (Mouse.mk 401 301)
           (Mouse.mk (-999) (-999)) drifting half).
  reflexivity.
Defined.

(** ** Starting twice *)

(** C6. Calling [init] on a system that is already running changes
    nothing: configuration, flakes, obstacles, canvas, listeners, pending
    frames and the oracle are all as before. *)
Theorem C6_start_is_idempotent (win : Window) (options : Options) (w : World) :
  System.isRunning (sys w) = true -> SnowSystem.init win options w = w.
Proof. intro H. unfold SnowSystem.init. rewrite H. reflexivity. Qed.

Lemma init_running (win : Window) (options : Options) (w : World) :
  System.isRunning (sys (SnowSystem.init win options w)) = true.
Proof.
  unfold SnowSystem.init.
  destruct (System.isRunning (sys w)) eqn:E; [exact E | reflexivity].
Qed.

Lemma C6_witness :
  SnowSystem.init window0
    (mkOptions (Some 7%Z) None None None None None None None None None)
    (SnowSystem.init window0 no_options (page half))
  = SnowSystem.init window0 no_options (page half).
Proof.
  apply (C6_start_is_idempotent window0 _
           (SnowSystem.init window0 no_options (page half))).
  reflexivity.
Defined.

(** ** What the system methods leave alone *)

Lemma createCanvas_keeps (w : World) :
  same_setup w (SnowSystem.createCanvas w)
  /\ same_flakes w (SnowSystem.createCanvas w).
Proof. repeat split. Qed.

Lemma bindEvents_keeps (w : World) :
  same_setup w (SnowSystem.bindEvents w)
  /\ same_flakes w (SnowSystem.bindEvents w).
Proof. repeat split. Qed.

Lemma updateObstacles_keeps (win : Window) (w : World) :
  same_setup w (SnowSystem.updateObstacles win w)
  /\ same_flakes w (SnowSystem.updateObstacles win w).
Proof.
  unfold SnowSystem.updateObstacles. cbv zeta.
  destruct (System.config (sys w)) as [[? ? ? ? ? ? [|sel sels] ? ? ?]|];
    try (repeat split; fail).
  destruct (SnowSystem.gather _ _ _) as [elements warned]. repeat split.
Qed.

Lemma resize_keeps (win : Window) (w : World) :
  System.config (sys (SnowSystem.resize win w)) = System.config (sys w)
  /\ System.mouse (sys (SnowSystem.resize win w)) = System.mouse (sys w)
  /\ System.isRunning (sys (SnowSystem.resize win w))
     = System.isRunning (sys w)
  /\ System.width (sys (SnowSystem.resize win w)) = innerWidth win
  /\ System.height (sys (SnowSystem.resize win w)) = innerHeight win
  /\ same_flakes w (SnowSystem.resize win w).
Proof.
  unfold SnowSystem.resize. cbv zeta.
  match goal with |- context [SnowSystem.updateObstacles win ?x] =>
    destruct (updateObstacles_keeps win x) as [(H1 & H2 & H3 & H4 & H5) [H6 H7]]
  end.
  rewrite H1, H2, H3, H4, H5. unfold same_flakes. rewrite H6, H7.
  repeat split.
Qed.

Lemma spawnFlakes_keeps (w : World) :
  same_setup w (SnowSystem.spawnFlakes w)
  /\ System.obstacles (sys (SnowSystem.spawnFlakes w))
     = System.obstacles (sys w).
Proof.
  unfold SnowSystem.spawnFlakes. cbv zeta.
  destruct (System.config (sys w)) as [c|] eqn:E.
  - destruct (SnowSystem.spawn _ _ _) as [fs o].
    unfold same_setup; simpl; rewrite ?E; repeat split.
  - unfold same_setup; simpl; rewrite ?E; repeat split.
Qed.

Lemma loop_keeps (w : World) :
  same_setup w (SnowSystem.loop w)
  /\ System.obstacles (sys (SnowSystem.loop w)) = System.obstacles (sys w).
Proof.
  unfold SnowSystem.loop. cbv zeta.
  destruct (System.config (sys w)) as [c|] eqn:E.
  - destruct (SnowSystem.each _ _ _) as [r o].
    unfold same_setup; simpl; rewrite ?E; repeat split.
  - unfold same_setup; simpl; rewrite ?E; repeat split.
Qed.

Lemma init_steps (win : Window) (options : Options) (w : World) :
  System.isRunning (sys w) = false ->
  SnowSystem.init win options w =
  SnowSystem.set_isRunning true (SnowSystem.loop (spawned win options w)).
Proof. intro H. unfold SnowSystem.init. rewrite H. reflexivity. Qed.

Lemma prepared_spec (win : Window) (options : Options) (w : World) :
  System.config (sys (prepared win options w))
  = Some (merge DEFAULTS options)
  /\ System.mouse (sys (prepared win options w)) = System.mouse (sys w)
  /\ System.width (sys (prepared win options w)) = innerWidth win
  /\ System.height (sys (prepared win options w)) = innerHeight win
  /\ oracle (prepared win options w) = oracle w.
Proof.
  unfold prepared.
  match goal with |- context [SnowSystem.resize win ?x] =>
    destruct (resize_keeps win x) as (H1 & H2 & _ & H4 & H5 & _ & H7)
  end.
  rewrite H1, H2, H4, H5, H7. repeat split.
Qed.

(** ** The four ways through [update] *)

Lemma update_cases (v : SysView) (f : Flake.t) (w : Oracle) :
  (melted v f /\ Snowflake.update v f w = Snowflake.init v true w)
  \/ (Flake.landed f = true
      /\ Snowflake.update v f w =
         (Flake.set_meltAlpha
            (Flake.meltAlpha f - meltSpeed (v_config v)) f, w))
  \/ (fell_out v f w
      /\ Snowflake.update v f w =
         bind (Snowflake.init v true) (Snowflake.detect v) (tick w))
  \/ (Flake.landed f = false
      /\ Snowflake.update v f w =
         Snowflake.detect v (Snowflake.move v (fst (Date_now w)) f) (tick w)).
Proof.
  destruct (Flake.landed f) eqn:Hl.
  - destruct (Rle_dec (Flake.meltAlpha f - meltSpeed (v_config v)) 0) as [H|H].
    + left. split; [split; assumption|].
      apply update_melted; split; assumption.
    + right; left. split; [reflexivity|].
      apply update_melting; [assumption | lra].
  - destruct (Rle_dec (Flake.y (Snowflake.move v (fst (Date_now w)) f))
                      (v_height v)) as [H|H].
    + right; right; right. split; [reflexivity|].
      apply update_falling; assumption.
    + right; right; left.
      assert (Hf : fell_out v f w) by (split; [assumption | lra]).
      split; [exact Hf | apply update_fell_out; exact Hf].
Qed.

(** ** Invariants of a running page *)

Section Invariant.

Variable c : Config.
(** What is asked of the window width, and the property of flakes. *)
Variable okw : R -> Prop.
Variable P : Flake.t -> Prop.

Hypothesis P_init :
  forall v isNew w,
    v_config v = c -> okw (v_width v) -> fair w ->
    P (fst (Snowflake.init v isNew w)).

Hypothesis P_update :
  forall v f w,
    v_config v = c -> okw (v_width v) -> fair w -> P f ->
    P (fst (Snowflake.update v f w)).

#[local] Abbreviation Inv := (WInv c okw P).

Lemma spawn_inv (v : SysView) (n : nat) :
  v_config v = c -> okw (v_width v) ->
  forall w, fair w ->
            Forall P (fst (SnowSystem.spawn v n w))
            /\ fair (snd (SnowSystem.spawn v n w)).
Proof.
  intros Hc Hk. induction n as [|n IH]; intros w Hw; simpl.
  - split; [constructor | exact Hw].
  - unfold bind, Snowflake.new.
    pose proof (P_init v false w Hc Hk Hw) as Hp.
    pose proof (fair_advances _ w (advances_init v false) Hw) as Hw1.
    destruct (Snowflake.init v false w) as [f w1]. simpl in Hp, Hw1.
    destruct (IH w1 Hw1) as [Hfs Hw2].
    destruct (SnowSystem.spawn v n w1) as [fs w2]. simpl in *.
    split; [constructor; assumption | exact Hw2].
Qed.

Lemma each_inv (v : SysView) :
  v_config v = c -> okw (v_width v) ->
  forall fs w, fair w -> Forall P fs ->
               Forall P (fst (fst (SnowSystem.each v fs w)))
               /\ fair (snd (SnowSystem.each v fs w)).
Proof.
  intros Hc Hk. induction fs as [|f fs IH]; intros w Hw Hfs; simpl.
  - split; [constructor | exact Hw].
  - pose proof (Forall_inv Hfs) as Hf.
    pose proof (Forall_inv_tail Hfs) as Hrest.
    unfold bind.
    pose proof (P_update v f w Hc Hk Hw Hf) as Hp.
    pose proof (fair_advances _ w (advances_update v f) Hw) as Hw1.
    destruct (Snowflake.update v f w) as [f' w1]. simpl in Hp, Hw1.
    destruct (IH w1 Hw1 Hrest) as [Hfs' Hw2].
    destruct (SnowSystem.each v fs w1) as [r w2]. simpl in *.
    split; [constructor; assumption | exact Hw2].
Qed.

Lemma spawnFlakes_inv (w : World) :
  System.config (sys w) = Some c -> fair (oracle w) ->
  okw (System.width (sys w)) ->
  Inv (SnowSystem.spawnFlakes w).
Proof.
  intros Hc Hw Hk.
  destruct (spawnFlakes_keeps w) as [(H1 & _ & _ & H4 & _) _].
  unfold WInv. rewrite H1, H4.
  unfold SnowSystem.spawnFlakes. cbv zeta. rewrite Hc.
  destruct (spawn_inv (SnowSystem.view c (sys w))
              (Z.to_nat (flakeCount c)) eq_refl Hk (oracle w) Hw) as [Hfs Hw'].
  destruct (SnowSystem.spawn _ _ _) as [fs o]. simpl in *.
  split; [|split; [|split]]; first [assumption | reflexivity].
Qed.

Lemma loop_inv (w : World) : Inv w -> Inv (SnowSystem.loop w).
Proof.
  intros (Hc & Hw & Hk & Hfs).
  destruct (loop_keeps w) as [(H1 & _ & _ & H4 & _) _].
  unfold WInv. rewrite H1, H4.
  unfold SnowSystem.loop. cbv zeta. rewrite Hc.
  destruct (each_inv (SnowSystem.view c (sys w)) eq_refl Hk
              (System.flakes (sys w)) (oracle w) Hw Hfs) as [Hfs' Hw'].
  destruct (SnowSystem.each _ _ _) as [r o]. simpl in *.
  split; [|split; [|split]]; first [assumption | reflexivity].
Qed.

Lemma updateObstacles_inv (win : Window) (w : World) :
  Inv w -> Inv (SnowSystem.updateObstacles win w).
Proof.
  intros (Hc & Hw & Hk & Hfs).
  destruct (updateObstacles_keeps win w) as [(H1 & _ & _ & H4 & _) [H6 H7]].
  unfold WInv. rewrite H1, H4, H6, H7. split; [|split; [|split]]; first [assumption | reflexivity].
Qed.

Lemma resize_inv (win : Window) (w : World) :
  okw (innerWidth win) -> Inv w -> Inv (SnowSystem.resize win w).
Proof.
  intros Hwin (Hc & Hw & Hk & Hfs).
  destruct (resize_keeps win w) as (H1 & _ & _ & H4 & _ & H6 & H7).
  unfold WInv. rewrite H1, H4, H6, H7. split; [|split; [|split]]; first [assumption | reflexivity].
Qed.

Lemma handle_inv (win : Window) (ev : Event) (l : Listener) (w : World) :
  okw (innerWidth win) -> Inv w -> Inv (SnowSystem.handle win ev l w).
Proof.
  intros Hwin H. destruct ev, l; simpl;
    auto using resize_inv, updateObstacles_inv.
Qed.

Lemma deliver_inv (win : Window) (ev : Event) (w : World) :
  okw (innerWidth win) -> Inv w -> Inv (SnowSystem.deliver win ev w).
Proof.
  intros Hwin H.
  assert (Hfold : forall ls w0, Inv w0 ->
            Inv (fold_left (fun w1 l => SnowSystem.handle win ev l w1) ls w0)).
  { induction ls as [|l ls IH]; intros w0 H0; simpl; [exact H0|].
    apply IH, handle_inv; assumption. }
  destruct ev; simpl; try (apply Hfold; exact H).
  destruct (frames (dom w)); [exact H|]. apply loop_inv. exact H.
Qed.

Lemma run_inv (evs : list (Window * Event)) :
  Forall (fun p => okw (innerWidth (fst p))) evs ->
  forall w, Inv w -> Inv (SnowSystem.run evs w).
Proof.
  induction evs as [|[win ev] evs IH]; intros Hws w H; simpl; [exact H|].
  apply IH; [exact (Forall_inv_tail Hws)|].
  apply deliver_inv; [exact (Forall_inv Hws) | exact H].
Qed.

Lemma init_inv (win : Window) (options : Options) (w : World) :
  merge DEFAULTS options = c ->
  System.isRunning (sys w) = false ->
  okw (innerWidth win) -> fair (oracle w) ->
  Inv (SnowSystem.init win options w).
Proof.
  intros Hc Hr Hwin Hw. rewrite init_steps by exact Hr.
  assert (H : Inv (SnowSystem.loop (spawned win options w))).
  { apply loop_inv. unfold spawned.
    destruct (prepared_spec win options w) as (H1 & _ & H3 & _ & H5).
    apply spawnFlakes_inv; rewrite ?H1, ?H3, ?H5;
      first [assumption | congruence]. }
  exact H.
Qed.

End Invariant.

(** ** Depth and size *)

Lemma init_good (v : SysView) (isNew : bool) (w : Oracle) :
  fair w -> good (v_config v) (fst (Snowflake.init v isNew w)).
Proof.
  intro Hw. pose proof (fair_draw w 0 Hw) as Hd.
  destruct isNew; [rewrite init_new | rewrite init_midfield];
    cbv zeta; unfold good; simpl; split; try reflexivity; lra.
Qed.

Lemma detect_same_body (v : SysView) (f : Flake.t) (w : Oracle) :
  same_body f (fst (Snowflake.detect v f w)).
Proof.
  unfold Snowflake.detect.
  destruct (_ >? _); [apply collide_same_body | apply same_body_refl].
Qed.

Lemma move_body (v : SysView) (now : R) (f : Flake.t) :
  Flake.z (Snowflake.move v now f) = Flake.z f
  /\ Flake.size (Snowflake.move v now f) = Flake.size f.
Proof.
  unfold Snowflake.move.
  destruct (wrap_body v (Snowflake.integrate v now f)) as (H1 & H2 & _).
  destruct (integrate_body v now f) as (H3 & H4 & _).
  split; congruence.
Qed.

(** One step either keeps z and size, or is a respawn and assigns both. *)
Lemma update_z_size (v : SysView) (f : Flake.t) (w : Oracle) :
  fair w ->
  let f' := fst (Snowflake.update v f w) in
  (Flake.z f' = Flake.z f /\ Flake.size f' = Flake.size f)
  \/ ((melted v f \/ fell_out v f w) /\ good (v_config v) f').
Proof.
  intros Hw f'. subst f'.
  destruct (update_cases v f w)
    as [[Hm ->] | [[_ ->] | [[Hf ->] | [_ ->]]]].
  - right. split; [left; exact Hm | apply init_good; exact Hw].
  - left. split; reflexivity.
  - right. split; [right; exact Hf|].
    unfold bind.
    pose proof (init_good v true (tick w) (fair_tick w Hw)) as Hg.
    destruct (Snowflake.init v true (tick w)) as [fresh w1]. simpl in Hg.
    destruct (detect_same_body v fresh w1) as (Hz & Hs & _).
    unfold good. rewrite Hz, Hs. exact Hg.
  - left.
    destruct (detect_same_body v (Snowflake.move v (fst (Date_now w)) f)
                (tick w)) as (Hz & Hs & _).
    destruct (move_body v (fst (Date_now w)) f) as [Hz' Hs'].
    split; congruence.
Qed.

Lemma update_good (v : SysView) (f : Flake.t) (w : Oracle) :
  fair w -> good (v_config v) f -> good (v_config v) (fst (Snowflake.update v f w)).
Proof.
  intros Hw Hg.
  destruct (update_z_size v f w Hw) as [[Hz Hs] | [_ H]]; [|exact H].
  unfold good. rewrite Hz, Hs. exact Hg.
Qed.

(** C7. For every particle, once spawned and after any number of events
    (frames, resizes, scrolls, mouse moves), 0.1 <= z < 1.0 and
    size = sizeBase * z; and one update step either leaves z and size as
    they are or is a respawn, which assigns both. *)
Theorem C7_depth_and_size (win : Window) (options : Options) (o : Oracle)
    (evs : list (Window * Event)) :
  fair o ->
  let c := merge DEFAULTS options in
  Forall (good c) (System.flakes (sys (spawned win options (page o))))
  /\ Forall (good c)
       (System.flakes
          (sys (SnowSystem.run evs (SnowSystem.init win options (page o)))))
  /\ (forall v f w,
        fair w ->
        let f' := fst (Snowflake.update v f w) in
        (Flake.z f' = Flake.z f /\ Flake.size f' = Flake.size f)
        \/ ((melted v f \/ fell_out v f w) /\ good (v_config v) f')).
Proof.
  intros Ho c.
  assert (Hi : forall v isNew w, v_config v = c -> True -> fair w ->
                 good c (fst (Snowflake.init v isNew w)))
    by (intros v b w <- _ Hw; apply init_good; exact Hw).
  assert (Hu : forall v f w, v_config v = c -> True -> fair w -> good c f ->
                 good c (fst (Snowflake.update v f w)))
    by (intros v f w <- _ Hw Hg; apply update_good; assumption).
  split; [|split].
  - destruct (prepared_spec win options (page o)) as (H1 & _ & _ & _ & H5).
    apply (spawnFlakes_inv c (fun _ => True) (good c) Hi);
      rewrite ?H1, ?H5; auto.
  - apply (run_inv c (fun _ => True) (good c) Hu).
    + apply Forall_forall; intros; exact I.
    + apply init_inv; auto.
  - intros v f w Hw. apply update_z_size. exact Hw.
Qed.

Lemma C7_witness :
  Forall (good DEFAULTS)
    (System.flakes
       (sys (SnowSystem.run session
               (SnowSystem.init window0 no_options (page half))))).
Proof.
  exact (proj1 (proj2 (C7_depth_and_size window0 no_options half session
                         fair_half))).
Defined.

(** ** The first population *)

Lemma init_false_midfield (v : SysView) (w : Oracle) :
  fair w ->
  midfield (v_config v) (v_width v) (v_height v)
           (fst (Snowflake.init v false w)).
Proof.
  intro Hw. rewrite init_midfield. cbv zeta. unfold midfield. simpl.
  pose proof (fair_draw w 0 Hw). pose proof (fair_draw w 1 Hw).
  pose proof (fair_draw w 2 Hw). pose proof (fair_draw w 3 Hw).
  pose proof (fair_draw w 4 Hw). pose proof (fair_draw w 5 Hw).
  split; [exists (draw_at w 2); split; [assumption | reflexivity]|].
  split; [lra|]. split; [reflexivity|].
  split; [exists (draw_at w 1); split; [assumption | reflexivity]|].
  split; [exists (draw_at w 3 * 0.5); split; [lra | reflexivity]|].
  split; [lra|]. split; [reflexivity|]. split; [reflexivity|].
  split; [reflexivity | lra].
Qed.

Lemma spawn_length (v : SysView) (n : nat) :
  forall w, List.length (fst (SnowSystem.spawn v n w)) = n.
Proof.
  induction n as [|n IH]; intro w; simpl; [reflexivity|].
  unfold bind. destruct (Snowflake.new v false w) as [f w1].
  specialize (IH w1). destruct (SnowSystem.spawn v n w1) as [fs w2].
  simpl in *. congruence.
Qed.

Lemma spawn_midfield (v : SysView) (n : nat) :
  forall w, fair w ->
            Forall (midfield (v_config v) (v_width v) (v_height v))
                   (fst (SnowSystem.spawn v n w)).
Proof.
  induction n as [|n IH]; intros w Hw; simpl; [constructor|].
  unfold bind, Snowflake.new.
  pose proof (init_false_midfield v w Hw) as Hm.
  pose proof (fair_advances _ w (advances_init v false) Hw) as Hw1.
  destruct (Snowflake.init v false w) as [f w1]. simpl in Hm, Hw1.
  specialize (IH w1 Hw1). destruct (SnowSystem.spawn v n w1) as [fs w2].
  simpl in *. constructor; assumption.
Qed.

Lemma each_length (v : SysView) (fs : list Flake.t) :
  forall w, List.length (fst (fst (SnowSystem.each v fs w))) = List.length fs.
Proof.
  induction fs as [|f fs IH]; intro w; simpl; [reflexivity|].
  unfold bind. destruct (Snowflake.update v f w) as [f' w1].
  specialize (IH w1). destruct (SnowSystem.each v fs w1) as [r w2].
  simpl in *. congruence.
Qed.

Lemma loop_length (w : World) :
  List.length (System.flakes (sys (SnowSystem.loop w)))
  = List.length (System.flakes (sys w)).
Proof.
  unfold SnowSystem.loop. cbv zeta.
  destruct (System.config (sys w)) as [c|]; [|reflexivity].
  pose proof (each_length (SnowSystem.view c (sys w)) (System.flakes (sys w))
                (oracle w)) as H.
  destruct (SnowSystem.each _ _ _) as [r o]. exact H.
Qed.

(** The flakes made by [init] before its first frame. *)
Lemma spawned_flakes (win : Window) (options : Options) (w : World) :
  exists v,
    v_config v = merge DEFAULTS options
    /\ v_width v = innerWidth win /\ v_height v = innerHeight win
    /\ System.flakes (sys (spawned win options w))
       = fst (SnowSystem.spawn v
                (Z.to_nat (flakeCount (merge DEFAULTS options))) (oracle w)).
Proof.
  destruct (prepared_spec win options w) as (H1 & _ & H3 & H4 & H5).
  exists (SnowSystem.view (merge DEFAULTS options)
                          (sys (prepared win options w))).
  split; [reflexivity|]. split; [exact H3|]. split; [exact H4|].
  unfold spawned, SnowSystem.spawnFlakes. cbv zeta. rewrite H1, H5.
  destruct (SnowSystem.spawn _ _ _) as [fs o]. reflexivity.
Qed.

(** C4 as stated fails: the flakes of the first population are made with
    [new Snowflake(this, false)], so the only flake of this start is at
    y = 0.5 * 600 = 300, not at -20. *)
Lemma C4_counterexample :
  exists f,
    System.flakes (sys (spawned window0 one_flake (page half))) = [f]
    /\ Flake.y f = 0.5 * 600
    /\ Flake.y f <> -20.
Proof.
  destruct (spawned_flakes window0 one_flake (page half))
    as (v & Hc & Hw & Hh & ->).
  change (Z.to_nat (flakeCount (merge DEFAULTS one_flake))) with 1%nat.
  simpl SnowSystem.spawn. unfold bind, Snowflake.new.
  rewrite init_midfield. cbv zeta.
  eexists. split; [reflexivity|]. simpl Flake.y. rewrite Hh.
  simpl. split; [reflexivity | lra].
Qed.

(** C4, amended. At system start, [init] spawns exactly flakeCount
    particles (for flakeCount >= 0), all of them mid-field spawns: every
    field as in a new spawn except y, which is r * height for a draw r in
    [0, 1) instead of -20; the first frame, run by the same call, keeps
    their number. *)
Theorem C4_start_spawns_midfield (win : Window) (options : Options)
    (w : World) :
  let c := merge DEFAULTS options in
  System.isRunning (sys w) = false ->
  fair (oracle w) ->
  (0 <= flakeCount c)%Z ->
  let fs := System.flakes (sys (spawned win options w)) in
  Z.of_nat (List.length fs) = flakeCount c
  /\ Forall (midfield c (innerWidth win) (innerHeight win)) fs
  /\ Z.of_nat (List.length (System.flakes (sys (SnowSystem.init win options w))))
     = flakeCount c.
Proof.
  intros c Hr Hw Hn fs.
  destruct (spawned_flakes win options w) as (v & Hc & Hwd & Hh & Hfs).
  fold c in Hc, Hfs. fold fs in Hfs.
  assert (Hlen : Z.of_nat (List.length fs) = flakeCount c)
    by (rewrite Hfs, spawn_length; apply Z2Nat.id; exact Hn).
  split; [exact Hlen|]. split.
  - rewrite Hfs, <- Hc, <- Hwd, <- Hh. apply spawn_midfield. exact Hw.
  - rewrite init_steps by exact Hr.
    change (System.flakes (sys (SnowSystem.set_isRunning true ?x)))
      with (System.flakes (sys x)).
    rewrite loop_length. exact Hlen.
Qed.

Lemma C4_witness :
  let fs := System.flakes (sys (spawned window0 one_flake (page half))) in
  Z.of_nat (List.length fs) = 1%Z
  /\ Forall (midfield (merge DEFAULTS one_flake) 800 600) fs
  /\ Z.of_nat (List.length (System.flakes
                         (sys (SnowSystem.init window0 one_flake (page half)))))
     = 1%Z.
Proof.
  apply (C4_start_spawns_midfield window0 one_flake (page half)).
  - reflexivity.
  - exact fair_half.
  - simpl. lia.
Defined.

(** ** The pointer that never moved *)

Lemma wrap_band (v : SysView) (f : Flake.t) :
  0 <= v_width v -> safe (Snowflake.wrap v f).
Proof.
  intro Hw. unfold Snowflake.wrap, safe. cbv zeta.
  destruct (Flake.x f >? v_width v + 5) eqn:E1.
  - simpl Flake.x at 1.
    rewrite (proj2 (Rltb_false (-5) (-5))) by lra. simpl. lra.
  - destruct (Flake.x f <? -5) eqn:E2.
    + simpl. lra.
    + apply Rltb_false in E2. exact E2.
Qed.

Lemma init_safe (v : SysView) (isNew : bool) (w : Oracle) :
  0 <= v_width v -> fair w -> safe (fst (Snowflake.init v isNew w)).
Proof.
  intros Hwd Hw. pose proof (fair_draw w 1 Hw) as Hd.
  destruct isNew; [rewrite init_new | rewrite init_midfield];
    cbv zeta; unfold safe; simpl; nra.
Qed.

Lemma update_safe (v : SysView) (f : Flake.t) (w : Oracle) :
  0 <= v_width v -> fair w -> safe f -> safe (fst (Snowflake.update v f w)).
Proof.
  intros Hwd Hw Hf.
  destruct (update_cases v f w)
    as [[_ ->] | [[_ ->] | [[_ ->] | [_ ->]]]].
  - apply init_safe; assumption.
  - exact Hf.
  - unfold bind.
    pose proof (init_safe v true (tick w) Hwd (fair_tick w Hw)) as Hs.
    destruct (Snowflake.init v true (tick w)) as [fresh w1]. simpl in Hs.
    destruct (detect_same_body v fresh w1) as (_ & _ & Hx & _).
    unfold safe. rewrite Hx. exact Hs.
  - destruct (detect_same_body v (Snowflake.move v (fst (Date_now w)) f)
                (tick w)) as (_ & _ & Hx & _).
    unfold safe. rewrite Hx. apply wrap_band. exact Hwd.
Qed.

(** From the band x >= -5 the constructor's mouse position is at least 994
    away, so a radius up to 994 reaches no flake. *)
Lemma repel_far (v : SysView) (f : Flake.t) (d : R * R) :
  v_mouse v = Mouse.mk (-999) (-999) ->
  safe f ->
  mouseRepulsionRadius (v_config v) <= 994 ->
  Snowflake.repel v f d = d.
Proof.
  intros Hm Hf Hr. unfold Snowflake.repel, safe in *. cbv zeta.
  destruct d as [dx dy].
  destruct (mouseInteraction (v_config v)); [|reflexivity].
  rewrite Hm. simpl Mouse.x. simpl Mouse.y.
  set (distX := Flake.x f - -999). set (distY := Flake.y f - -999).
  assert (H0 : 0 <= distX) by (unfold distX; lra).
  assert (H1 : distX <= sqrt (distX * distX + distY * distY)).
  { rewrite <- (sqrt_square distX H0) at 1.
    apply sqrt_le_1_alt. nra. }
  rewrite (proj2 (Rltb_false _ _)); [reflexivity|].
  unfold distX in *. lra.
Qed.

(** Inside the radius the repulsion does move the flake. *)
Lemma repel_near (v : SysView) (f : Flake.t) (d : R * R) :
  mouseInteraction (v_config v) = true ->
  sqrt ((Flake.x f - Mouse.x (v_mouse v)) * (Flake.x f - Mouse.x (v_mouse v))
        + (Flake.y f - Mouse.y (v_mouse v)) * (Flake.y f - Mouse.y (v_mouse v)))
  < mouseRepulsionRadius (v_config v) ->
  0 < Flake.z f ->
  Snowflake.repel v f d <> d.
Proof.
  intros Hon Hd Hz. unfold Snowflake.repel. cbv zeta.
  destruct d as [dx dy]. rewrite Hon.
  rewrite (proj2 (Rltb_true _ _) Hd).
  set (dist := sqrt _) in *.
  set (angle := atan2 _ _).
  assert (H0 : 0 <= dist) by apply sqrt_pos.
  assert (Hforce : 0 < (mouseRepulsionRadius (v_config v) - dist)
                       / mouseRepulsionRadius (v_config v))
    by (apply Rdiv_lt_0_compat; lra).
  set (force := (_ - dist) / _) in *.
  intro E. injection E as Ex Ey.
  assert (Hk : 0 < force * 5 * Flake.z f) by nra.
  assert (Hc : cos angle = 0) by nra.
  assert (Hs : sin angle = 0) by nra.
  pose proof (sin2_cos2 angle) as H. unfold Rsqr in H.
  rewrite Hc, Hs in H. lra.
Qed.

Lemma handle_mouse (win : Window) (ev : Event) (l : Listener) (w : World) :
  is_pointer ev = false ->
  System.mouse (sys (SnowSystem.handle win ev l w)) = System.mouse (sys w).
Proof.
  intro H. destruct ev, l; simpl; try reflexivity; try discriminate.
  - apply resize_keeps.
  - apply updateObstacles_keeps.
Qed.

Lemma deliver_mouse (win : Window) (ev : Event) (w : World) :
  is_pointer ev = false ->
  System.mouse (sys (SnowSystem.deliver win ev w)) = System.mouse (sys w).
Proof.
  intro H.
  assert (Hfold : forall ls w0,
            System.mouse
              (sys (fold_left (fun w1 l => SnowSystem.handle win ev l w1) ls w0))
            = System.mouse (sys w0)).
  { induction ls as [|l ls IH]; intro w0; simpl; [reflexivity|].
    rewrite IH. apply handle_mouse. exact H. }
  destruct ev; simpl; try apply Hfold; try discriminate.
  destruct (frames (dom w)); [reflexivity|].
  match goal with |- context [SnowSystem.loop ?x] =>
    destruct (loop_keeps x) as [(_ & Hm & _) _] end.
  rewrite Hm. reflexivity.
Qed.

Lemma run_mouse (evs : list (Window * Event)) :
  no_pointer evs = true ->
  forall w, System.mouse (sys (SnowSystem.run evs w)) = System.mouse (sys w).
Proof.
  induction evs as [|[win ev] evs IH]; intros H w; simpl; [reflexivity|].
  simpl in H. apply andb_true_iff in H. destruct H as [H1 H2].
  rewrite IH by exact H2. apply deliver_mouse.
  destruct (is_pointer ev); [discriminate | reflexivity].
Qed.

Lemma init_mouse (win : Window) (options : Options) (w : World) :
  System.mouse (sys (SnowSystem.init win options w)) = System.mouse (sys w).
Proof.
  destruct (System.isRunning (sys w)) eqn:Hr.
  - unfold SnowSystem.init. rewrite Hr. reflexivity.
  - rewrite init_steps by exact Hr.
    change (System.mouse (sys (SnowSystem.set_isRunning true ?x)))
      with (System.mouse (sys x)).
    destruct (loop_keeps (spawned win options w)) as [(_ & Hm & _) _].
    destruct (spawnFlakes_keeps (prepared win options w)) as [(_ & Hm' & _) _].
    destruct (prepared_spec win options w) as (_ & Hm'' & _).
    rewrite Hm. unfold spawned. rewrite Hm'. exact Hm''.
Qed.

Lemma spawned_setup (win : Window) (options : Options) (w : World) :
  System.config (sys (spawned win options w)) = Some (merge DEFAULTS options)
  /\ System.mouse (sys (spawned win options w)) = System.mouse (sys w)
  /\ System.width (sys (spawned win options w)) = innerWidth win.
Proof.
  destruct (spawnFlakes_keeps (prepared win options w))
    as [(H1 & H2 & _ & H4 & _) _].
  destruct (prepared_spec win options w) as (H1' & H2' & H3' & _).
  unfold spawned. rewrite H1, H2, H4. repeat split; assumption.
Qed.

(** C9 as stated fails: with mouseRepulsionRadius = 2000 > 0 and no pointer
    input at all, the flake spawned at (400, 300) is about 1909 away from
    the constructor's mouse position (-999, -999), inside the radius, and
    the first frame's repulsion step does displace it. *)
Lemma C9_counterexample :
  let w := spawned window0 wide_one (page half) in
  let c := merge DEFAULTS wide_one in
  0 < mouseRepulsionRadius c
  /\ System.config (sys w) = Some c
  /\ System.mouse (sys w) = Mouse.mk (-999) (-999)
  /\ exists f,
       System.flakes (sys w) = [f]
       /\ sqrt ((Flake.x f - -999) * (Flake.x f - -999)
                + (Flake.y f - -999) * (Flake.y f - -999))
          < mouseRepulsionRadius c
       /\ Snowflake.repel (SnowSystem.view c (sys w)) f (0, 0) <> (0, 0).
Proof.
  cbv zeta.
  destruct (spawned_setup window0 wide_one (page half)) as (Hc & Hm & _).
  destruct (spawned_flakes window0 wide_one (page half))
    as (v & Hvc & Hvw & Hvh & Hfs).
  split; [simpl; lra|]. split; [exact Hc|]. split; [exact Hm|].
  rewrite Hfs.
  change (Z.to_nat (flakeCount (merge DEFAULTS wide_one))) with 1%nat.
  simpl SnowSystem.spawn. unfold bind, Snowflake.new.
  rewrite init_midfield. cbv zeta. eexists. split; [reflexivity|].
  assert (Hd : sqrt ((draw_at (oracle (page half)) 1 * v_width v - -999)
                     * (draw_at (oracle (page half)) 1 * v_width v - -999)
                     + (draw_at (oracle (page half)) 2 * v_height v - -999)
                       * (draw_at (oracle (page half)) 2 * v_height v - -999))
               < 2000).
  { rewrite Hvw, Hvh. simpl.
    rewrite <- (sqrt_square 2000) at 1 by lra.
    apply sqrt_lt_1_alt. lra. }
  split; [exact Hd|].
  apply repel_near.
  - reflexivity.
  - unfold SnowSystem.view. simpl v_mouse. rewrite Hm. exact Hd.
  - simpl. lra.
Qed.

(** C9, amended. While no pointer input has been received the repulsion
    point stays at (-999, -999); every particle stays in the band x >= -5,
    at least 994 away from it, so for every configured
    mouseRepulsionRadius <= 994 (window widths being non-negative) no
    particle is ever within the radius, and the repulsion step adds
    nothing to any particle's displacement: before the first frame and
    after any run of frames, resizes and scrolls. *)
Theorem C9_sentinel_out_of_reach (win : Window) (options : Options)
    (o : Oracle) (evs : list (Window * Event)) :
  let c := merge DEFAULTS options in
  fair o ->
  0 <= innerWidth win ->
  Forall (fun p => 0 <= innerWidth (fst p)) evs ->
  no_pointer evs = true ->
  mouseRepulsionRadius c <= 994 ->
  forall w,
    w = spawned win options (page o)
    \/ w = SnowSystem.run evs (SnowSystem.init win options (page o)) ->
    System.mouse (sys w) = Mouse.mk (-999) (-999)
    /\ Forall (fun f =>
                 -5 <= Flake.x f
                 /\ forall d, Snowflake.repel (SnowSystem.view c (sys w)) f d = d)
              (System.flakes (sys w)).
Proof.
  intros c Ho Hwin Hevs Hnp Hr w Hw.
  assert (Hi : forall v isNew w0, v_config v = c -> 0 <= v_width v -> fair w0 ->
                 safe (fst (Snowflake.init v isNew w0)))
    by (intros; apply init_safe; assumption).
  assert (Hu : forall v f w0, v_config v = c -> 0 <= v_width v -> fair w0 ->
                 safe f -> safe (fst (Snowflake.update v f w0)))
    by (intros; apply update_safe; assumption).
  assert (H : System.mouse (sys w) = Mouse.mk (-999) (-999)
              /\ Forall safe (System.flakes (sys w))).
  { destruct Hw as [-> | ->].
    - destruct (spawned_setup win options (page o)) as (_ & Hm & _).
      split; [exact Hm|].
      destruct (prepared_spec win options (page o)) as (H1 & _ & H3 & _ & H5).
      apply (spawnFlakes_inv c (fun wd => 0 <= wd) safe Hi);
        rewrite ?H1, ?H3, ?H5; auto.
    - split.
      + rewrite run_mouse by exact Hnp. rewrite init_mouse. reflexivity.
      + apply (run_inv c (fun wd => 0 <= wd) safe Hu); [exact Hevs|].
        apply init_inv; auto. }
  destruct H as [Hm Hsafe]. split; [exact Hm|].
  apply Forall_forall. intros f Hin.
  assert (Hf : safe f) by (revert f Hin; apply Forall_forall; exact Hsafe).
  split; [exact Hf|]. intro d. apply repel_far; assumption.
Qed.

Lemma C9_witness :
  let w := SnowSystem.run quiet_session
             (SnowSystem.init window0 no_options (page half)) in
  System.mouse (sys w) = Mouse.mk (-999) (-999)
  /\ Forall (fun f =>
               -5 <= Flake.x f
               /\ forall d,
                    Snowflake.repel (SnowSystem.view DEFAULTS (sys w)) f d = d)
            (System.flakes (sys w)).
Proof.
  apply (C9_sentinel_out_of_reach window0 no_options half quiet_session).
  - exact fair_half.
  - simpl; lra.
  - repeat constructor; simpl; lra.
  - reflexivity.
  - simpl; lra.
  - right; reflexivity.
Defined.

(** ** A started system stays started *)

Lemma handle_running (win : Window) (ev : Event) (l : Listener) (w : World) :
  System.isRunning (sys (SnowSystem.handle win ev l w))
  = System.isRunning (sys w).
Proof.
  destruct ev, l; simpl; try reflexivity.
  - apply resize_keeps.
  - apply updateObstacles_keeps.
Qed.

Lemma deliver_running (win : Window) (ev : Event) (w : World) :
  System.isRunning (sys (SnowSystem.deliver win ev w))
  = System.isRunning (sys w).
Proof.
  assert (Hfold : forall ls w0,
            System.isRunning
              (sys (fold_left (fun w1 l => SnowSystem.handle win ev l w1) ls w0))
            = System.isRunning (sys w0)).
  { induction ls as [|l ls IH]; intro w0; simpl; [reflexivity|].
    rewrite IH. apply handle_running. }
  destruct ev; simpl; try apply Hfold.
  destruct (frames (dom w)); [reflexivity|].
  match goal with |- context [SnowSystem.loop ?x] =>
    destruct (loop_keeps x) as [(_ & _ & Hr & _) _] end.
  rewrite Hr. reflexivity.
Qed.

Lemma run_running (evs : list (Window * Event)) :
  forall w, System.isRunning (sys (SnowSystem.run evs w))
            = System.isRunning (sys w).
Proof.
  induction evs as [|[win ev] evs IH]; intro w; simpl; [reflexivity|].
  rewrite IH. apply deliver_running.
Qed.

(** After a first [init], whatever events follow, a second [init] is a
    no-op. *)
Lemma second_init_noop (win1 win2 : Window) (o1 o2 : Options)
    (evs : list (Window * Event)) (w : World) :
  SnowSystem.init win2 o2 (SnowSystem.run evs (SnowSystem.init win1 o1 w))
  = SnowSystem.run evs (SnowSystem.init win1 o1 w).
Proof.
  unfold SnowSystem.init at 1.
  rewrite run_running, init_running. reflexivity.
Qed.

(** * Further properties of the code *)

(** ** The horizontal wrap *)

Lemma wrap_eq (v : SysView) (f : Flake.t) :
  Snowflake.wrap v f =
  if Flake.x f >? v_width v + 5 then Flake.set_x (-5) f
  else if Flake.x f <? -5 then Flake.set_x (v_width v + 5) f
  else f.
Proof.
  unfold Snowflake.wrap. cbv zeta.
  destruct (Flake.x f >? v_width v + 5); [|reflexivity].
  change (Flake.x (Flake.set_x (-5) f)) with (-5).
  rewrite (proj2 (Rltb_false (-5) (-5))) by lra. reflexivity.
Qed.

(** X1. The two horizontal tests of [update] are a toroidal wrap: a flake
    more than 5 past the right edge goes to x = -5, one more than 5 past
    the left edge goes to x = width + 5, one inside the band is not
    touched, and in every case the flake ends inside [-5, width + 5] with
    all its other fields unchanged. *)
Theorem wrap_is_toroidal (v : SysView) (f : Flake.t) :
  0 <= v_width v ->
  let g := Snowflake.wrap v f in
  -5 <= Flake.x g <= v_width v + 5
  /\ (Flake.x f > v_width v + 5 -> Flake.x g = -5)
  /\ (Flake.x f < -5 -> Flake.x g = v_width v + 5)
  /\ (-5 <= Flake.x f <= v_width v + 5 -> g = f)
  /\ Flake.set_x (Flake.x f) g = f.
Proof.
  intros Hw g. subst g. rewrite wrap_eq.
  destruct (Flake.x f >? v_width v + 5) eqn:E1.
  - apply Rgtb_true in E1. destruct f; simpl in *.
    split; [lra|]. split; [reflexivity|]. split; [lra|].
    split; [lra | reflexivity].
  - apply Rgtb_false in E1.
    destruct (Flake.x f <? -5) eqn:E2.
    + apply Rltb_true in E2. destruct f; simpl in *.
      split; [lra|]. split; [lra|]. split; [reflexivity|].
      split; [lra | reflexivity].
    + apply Rltb_false in E2. destruct f; simpl in *.
      split; [lra|]. split; [lra|]. split; [lra|].
      split; reflexivity.
Qed.

Lemma wrap_is_toroidal_witness :
  let g := Snowflake.wrap view0 (Flake.set_x 806 drifting) in
  -5 <= Flake.x g <= v_width view0 + 5
  /\ (Flake.x (Flake.set_x 806 drifting) > v_width view0 + 5 -> Flake.x g = -5)
  /\ (Flake.x (Flake.set_x 806 drifting) < -5 -> Flake.x g = v_width view0 + 5)
  /\ (-5 <= Flake.x (Flake.set_x 806 drifting) <= v_width view0 + 5 ->
      g = Flake.set_x 806 drifting)
  /\ Flake.set_x (Flake.x (Flake.set_x 806 drifting)) g
     = Flake.set_x 806 drifting.
Proof.
  apply (wrap_is_toroidal view0 (Flake.set_x 806 drifting)).
  simpl; lra.
Defined.

(** ** What the collision loop can and cannot do *)

Lemma hit_y_le (c : Config) (o : Obstacle.t) (f : Flake.t) (w : Oracle) :
  Flake.y (fst (Snowflake.hit c o f w)) <= Flake.y f.
Proof.
  destruct (hit_cases c o f w) as [[_ ->] | [(_ & _ & ->) | (Hq & _ & ->)]];
    simpl; try lra.
  apply qualifies_true in Hq. lra.
Qed.

Lemma collide_y_le (c : Config) (obs : list Obstacle.t) :
  forall f w, Flake.y (fst (Snowflake.collide c obs f w)) <= Flake.y f.
Proof.
  induction obs as [|o rest IH]; intros f w; simpl; [lra|].
  unfold bind. pose proof (hit_y_le c o f w) as H.
  destruct (Snowflake.hit c o f w) as [g w1]. simpl in H.
  specialize (IH g w1). lra.
Qed.

Lemma detect_y_le (v : SysView) (f : Flake.t) (w : Oracle) :
  Flake.y (fst (Snowflake.detect v f w)) <= Flake.y f.
Proof.
  unfold Snowflake.detect.
  destruct (_ >? _); [apply collide_y_le | simpl; lra].
Qed.

(** X2. A landing never moves a flake down: the collision loop leaves y
    where it is or snaps it upwards, so the update of a falling flake
    never leaves it below the bottom edge (the window height being at
    least -20, where respawned flakes start). *)
Theorem update_stays_above_bottom (v : SysView) (f : Flake.t) (w : Oracle) :
  -20 <= v_height v ->
  Flake.landed f = false ->
  Flake.y (fst (Snowflake.update v f w)) <= v_height v
  /\ forall c obs g w', Flake.y (fst (Snowflake.collide c obs g w')) <= Flake.y g.
Proof.
  intros Hh Hl. split; [|intros; apply collide_y_le].
  destruct (update_cases v f w)
    as [[[Hl' _] _] | [[Hl' _] | [[_ ->] | [_ E]]]]; try congruence.
  - unfold bind. rewrite init_new. cbv zeta.
    eapply Rle_trans; [apply detect_y_le | simpl; lra].
  - destruct (Rle_dec (Flake.y (Snowflake.move v (fst (Date_now w)) f))
                      (v_height v)) as [H|H].
    + rewrite E.
      pose proof (detect_y_le v (Snowflake.move v (fst (Date_now w)) f)
                    (tick w)). lra.
    + assert (Hf : fell_out v f w) by (split; [assumption | lra]).
      rewrite update_fell_out by exact Hf.
      unfold bind. rewrite init_new. cbv zeta.
      eapply Rle_trans; [apply detect_y_le | simpl; lra].
Qed.

Lemma update_stays_above_bottom_witness :
  Flake.y (fst (Snowflake.update floor_view at_floor half))
  <= v_height floor_view
  /\ forall c obs g w', Flake.y (fst (Snowflake.collide c obs g w')) <= Flake.y g.
Proof.
  apply (update_stays_above_bottom floor_view at_floor half).
  - simpl; lra.
  - reflexivity.
Defined.

(** X3. Far flakes never collide: a falling flake with z <= 0.4 that stays
    above the bottom edge is only moved by the update; it is not landed,
    whatever the obstacles are, and no random number is drawn. *)
Theorem far_flakes_pass_through (v : SysView) (f : Flake.t) (w : Oracle) :
  Flake.landed f = false ->
  Flake.z f <= 0.4 ->
  Flake.y (Snowflake.move v (fst (Date_now w)) f) <= v_height v ->
  Snowflake.update v f w = (Snowflake.move v (fst (Date_now w)) f, tick w)
  /\ Flake.landed (fst (Snowflake.update v f w)) = false
  /\ rand_pos (snd (Snowflake.update v f w)) = rand_pos w.
Proof.
  intros Hl Hz Hy.
  assert (E : Snowflake.update v f w
              = (Snowflake.move v (fst (Date_now w)) f, tick w)).
  { rewrite update_falling by assumption. unfold Snowflake.detect.
    destruct (move_body v (fst (Date_now w)) f) as [Hz' _].
    rewrite (proj2 (Rgtb_false _ _)) by (rewrite Hz'; exact Hz).
    reflexivity. }
  rewrite E. split; [reflexivity|]. split; [|reflexivity].
  cbn [fst]. unfold Snowflake.move.
  destruct (wrap_body v (Snowflake.integrate v (fst (Date_now w)) f))
    as (_ & _ & _ & Hwl & _).
  destruct (integrate_body v (fst (Date_now w)) f) as (_ & _ & Hil & _).
  rewrite Hwl, Hil. exact Hl.
Qed.

Lemma move_y_off (v : SysView) (now : R) (f : Flake.t) :
  mouseInteraction (v_config v) = false ->
  Flake.y (Snowflake.move v now f) = Flake.y f + Flake.vy f.
Proof.
  intro H. unfold Snowflake.move.
  destruct (wrap_body v (Snowflake.integrate v now f)) as (_ & _ & Hy & _).
  rewrite Hy, integrate_off by exact H. reflexivity.
Qed.

Lemma far_flakes_pass_through_witness :
  Snowflake.update shelf_view far_flake half
  = (Snowflake.move shelf_view (fst (Date_now half)) far_flake, tick half)
  /\ Flake.landed (fst (Snowflake.update shelf_view far_flake half)) = false
  /\ rand_pos (snd (Snowflake.update shelf_view far_flake half))
     = rand_pos half.
Proof.
  apply (far_flakes_pass_through shelf_view far_flake half).
  - reflexivity.
  - simpl; lra.
  - rewrite move_y_off by reflexivity. simpl; lra.
Defined.

(** ** Stickiness zero *)

Lemma collide_never_sticks (c : Config) (obs : list Obstacle.t) :
  stickiness c <= 0 ->
  forall f w, fair w -> fst (Snowflake.collide c obs f w) = f.
Proof.
  intro Hs. induction obs as [|o rest IH]; intros f w Hw; [reflexivity|].
  simpl. unfold bind.
  pose proof (fair_draw w 0 Hw) as Hd.
  destruct (hit_cases c o f w) as [[_ ->] | [(_ & _ & ->) | (_ & Hlt & _)]].
  - apply IH; exact Hw.
  - apply IH. apply fair_skip. exact Hw.
  - lra.
Qed.

Lemma detect_never_sticks (v : SysView) (f : Flake.t) (w : Oracle) :
  stickiness (v_config v) <= 0 -> fair w ->
  fst (Snowflake.detect v f w) = f.
Proof.
  intros Hs Hw. unfold Snowflake.detect.
  destruct (_ >? _); [apply collide_never_sticks; assumption | reflexivity].
Qed.

Lemma move_airborne (v : SysView) (now : R) (f : Flake.t) :
  Flake.landed (Snowflake.move v now f) = Flake.landed f.
Proof.
  unfold Snowflake.move.
  destruct (wrap_body v (Snowflake.integrate v now f)) as (_ & _ & _ & Hwl & _).
  destruct (integrate_body v now f) as (_ & _ & Hil & _).
  rewrite Hwl, Hil. reflexivity.
Qed.

Lemma update_never_sticks (v : SysView) (f : Flake.t) (w : Oracle) :
  stickiness (v_config v) <= 0 -> fair w ->
  airborne f -> airborne (fst (Snowflake.update v f w)).
Proof.
  intros Hs Hw Hl. unfold airborne in *.
  destruct (update_cases v f w)
    as [[[Hl' _] _] | [[Hl' _] | [[_ ->] | [_ ->]]]]; try congruence.
  - unfold bind.
    pose proof (fair_advances _ (tick w) (advances_init v true)
                  (fair_tick w Hw)) as Hw1.
    destruct (Snowflake.init v true (tick w)) as [fresh w1] eqn:E.
    simpl in Hw1. rewrite detect_never_sticks by assumption.
    rewrite init_new in E. injection E as <- _. reflexivity.
  - rewrite detect_never_sticks by auto using fair_tick.
    rewrite move_airborne. exact Hl.
Qed.

(** X4. With stickiness <= 0 nothing ever lands: after the start and any
    run of frames, resizes, scrolls and mouse moves, whatever the
    obstacles are, every flake is still falling. *)
Theorem zero_stickiness_never_lands (win : Window) (options : Options)
    (o : Oracle) (evs : list (Window * Event)) :
  fair o ->
  stickiness (merge DEFAULTS options) <= 0 ->
  Forall airborne
    (System.flakes
       (sys (SnowSystem.run evs (SnowSystem.init win options (page o))))).
Proof.
  intros Ho Hs.
  set (c := merge DEFAULTS options) in *.
  assert (Hi : forall v isNew w, v_config v = c -> True -> fair w ->
                 airborne (fst (Snowflake.init v isNew w)))
    by (intros v b w _ _ _; destruct b; reflexivity).
  assert (Hu : forall v f w, v_config v = c -> True -> fair w -> airborne f ->
                 airborne (fst (Snowflake.update v f w)))
    by (intros v f w <- _ Hw Hf; apply update_never_sticks; assumption).
  apply (run_inv c (fun _ => True) airborne Hu).
  - apply Forall_forall; intros; exact I.
  - apply init_inv; auto.
Qed.

Lemma zero_stickiness_never_lands_witness :
  Forall airborne
    (System.flakes
       (sys (SnowSystem.run shelf_session
               (SnowSystem.init window2 slippery_options (page half))))).
Proof.
  apply (zero_stickiness_never_lands window2 slippery_options half
           shelf_session).
  - exact fair_half.
  - simpl; lra.
Defined.

(** ** Setting the running flag *)

Lemma set_isRunning_keeps (b : bool) (w : World) :
  System.isRunning (sys (SnowSystem.set_isRunning b w)) = b
  /\ System.config (sys (SnowSystem.set_isRunning b w)) = System.config (sys w)
  /\ System.flakes (sys (SnowSystem.set_isRunning b w)) = System.flakes (sys w)
  /\ System.obstacles (sys (SnowSystem.set_isRunning b w))
     = System.obstacles (sys w)
  /\ System.canvas (sys (SnowSystem.set_isRunning b w)) = System.canvas (sys w)
  /\ System.width (sys (SnowSystem.set_isRunning b w)) = System.width (sys w)
  /\ System.height (sys (SnowSystem.set_isRunning b w)) = System.height (sys w)
  /\ dom (SnowSystem.set_isRunning b w) = dom w.
Proof. repeat split. Qed.

(** ** No obstacles *)

Lemma detect_no_obstacles (v : SysView) (f : Flake.t) (w : Oracle) :
  v_obstacles v = [] -> Snowflake.detect v f w = (f, w).
Proof.
  intro H. unfold Snowflake.detect. rewrite H.
  destruct (_ >? _); reflexivity.
Qed.

Lemma update_no_obstacles (v : SysView) (f : Flake.t) (w : Oracle) :
  v_obstacles v = [] ->
  airborne f -> airborne (fst (Snowflake.update v f w)).
Proof.
  intros Ho Hl. unfold airborne in *.
  destruct (update_cases v f w)
    as [[[Hl' _] _] | [[Hl' _] | [[_ ->] | [_ ->]]]]; try congruence.
  - unfold bind. rewrite init_new. cbv zeta.
    rewrite detect_no_obstacles by exact Ho. reflexivity.
  - rewrite detect_no_obstacles by exact Ho.
    cbn [fst]. rewrite move_airborne. exact Hl.
Qed.

Lemma each_no_obstacles (v : SysView) :
  v_obstacles v = [] ->
  forall fs w, Forall airborne fs ->
               Forall airborne (fst (fst (SnowSystem.each v fs w))).
Proof.
  intro Ho. induction fs as [|f fs IH]; intros w Hfs; simpl; [constructor|].
  unfold bind.
  pose proof (update_no_obstacles v f w Ho (Forall_inv Hfs)) as Hf.
  destruct (Snowflake.update v f w) as [f' w1]. simpl in Hf.
  specialize (IH w1 (Forall_inv_tail Hfs)).
  destruct (SnowSystem.each v fs w1) as [r w2]. simpl in *.
  constructor; assumption.
Qed.

Lemma spawn_airborne (v : SysView) (n : nat) :
  forall w, Forall airborne (fst (SnowSystem.spawn v n w)).
Proof.
  induction n as [|n IH]; intro w; simpl; [constructor|].
  unfold bind, Snowflake.new. rewrite init_midfield. cbv zeta.
  specialize (IH (skip 6 w)).
  destruct (SnowSystem.spawn v n (skip 6 w)) as [fs w2]. simpl in *.
  constructor; [reflexivity | exact IH].
Qed.

Lemma updateObstacles_none (win : Window) (c : Config) (w : World) :
  System.config (sys w) = Some c -> collectSelectors c = [] ->
  System.obstacles (sys (SnowSystem.updateObstacles win w)) = [].
Proof.
  intros Hc Hs. unfold SnowSystem.updateObstacles. cbv zeta. rewrite Hc.
  destruct c; simpl in Hs; subst. reflexivity.
Qed.

Lemma updateObstacles_bare (win : Window) (c : Config) (w : World) :
  collectSelectors c = [] ->
  bare c w -> bare c (SnowSystem.updateObstacles win w).
Proof.
  intros Hs (Hc & _ & Hfs).
  destruct (updateObstacles_keeps win w) as [(H1 & _) [H6 _]].
  unfold bare. rewrite H1, H6.
  split; [exact Hc|]. split; [|exact Hfs].
  apply (updateObstacles_none win c); assumption.
Qed.

Lemma resize_bare (win : Window) (c : Config) (w : World) :
  collectSelectors c = [] ->
  System.config (sys w) = Some c ->
  Forall airborne (System.flakes (sys w)) ->
  bare c (SnowSystem.resize win w).
Proof.
  intros Hs Hc Hfs. unfold SnowSystem.resize. cbv zeta.
  match goal with |- bare c (SnowSystem.updateObstacles win ?x) =>
    destruct (updateObstacles_keeps win x) as [(H1 & _) [H6 _]];
    pose proof (updateObstacles_none win c x Hc Hs) as Ho
  end.
  unfold bare. rewrite H1, H6, Ho. repeat split; assumption.
Qed.

Lemma loop_bare (c : Config) (w : World) :
  bare c w -> bare c (SnowSystem.loop w).
Proof.
  intros (Hc & Ho & Hfs).
  destruct (loop_keeps w) as [(H1 & _) H2].
  unfold bare. rewrite H1, H2.
  split; [exact Hc|]. split; [exact Ho|].
  unfold SnowSystem.loop. cbv zeta. rewrite Hc.
  pose proof (each_no_obstacles (SnowSystem.view c (sys w)) Ho
                (System.flakes (sys w)) (oracle w) Hfs) as H.
  destruct (SnowSystem.each _ _ _) as [r o]. exact H.
Qed.

Lemma deliver_bare (win : Window) (ev : Event) (c : Config) (w : World) :
  collectSelectors c = [] ->
  bare c w -> bare c (SnowSystem.deliver win ev w).
Proof.
  intros Hs H.
  assert (Hh : forall l w0, bare c w0 -> bare c (SnowSystem.handle win ev l w0)).
  { intros l w0 H0. destruct ev, l; simpl; try exact H0.
    - destruct H0 as (Hc & _ & Hfs). apply resize_bare; assumption.
    - apply updateObstacles_bare; assumption. }
  assert (Hfold : forall ls w0, bare c w0 ->
            bare c (fold_left (fun w1 l => SnowSystem.handle win ev l w1) ls w0)).
  { induction ls as [|l ls IH]; intros w0 H0; simpl; [exact H0|].
    apply IH, Hh, H0. }
  destruct ev; simpl; try (apply Hfold; exact H).
  destruct (frames (dom w)); [exact H|]. apply loop_bare. exact H.
Qed.

(** X5. Without collect selectors there is no accumulation: the obstacle
    list is empty after the start and stays empty through every resize and
    scroll, and no flake is ever landed, in any run and for any random
    numbers. *)
Theorem no_selectors_no_accumulation (win : Window) (options : Options)
    (o : Oracle) (evs : list (Window * Event)) :
  collectSelectors (merge DEFAULTS options) = [] ->
  let w := SnowSystem.run evs (SnowSystem.init win options (page o)) in
  System.obstacles (sys w) = []
  /\ Forall airborne (System.flakes (sys w)).
Proof.
  intros Hs w.
  set (c := merge DEFAULTS options) in *.
  assert (Hrun : forall es w0, bare c w0 -> bare c (SnowSystem.run es w0)).
  { induction es as [|[wn ev] es IH]; intros w0 H0; simpl; [exact H0|].
    apply IH, deliver_bare; assumption. }
  assert (H : bare c w).
  { apply Hrun. rewrite init_steps by reflexivity.
    assert (Hset : forall x, bare c x -> bare c (SnowSystem.set_isRunning true x))
      by (intros x Hx; exact Hx).
    apply Hset. apply loop_bare.
    destruct (spawned_setup win options (page o)) as (Hc & _).
    destruct (spawned_flakes win options (page o)) as (v & _ & _ & _ & Hfs).
    destruct (spawnFlakes_keeps (prepared win options (page o))) as [_ Hob].
    split; [exact Hc|]. split.
    - unfold spawned. rewrite Hob. unfold prepared.
      match goal with |- System.obstacles (sys (SnowSystem.resize win ?x)) = [] =>
        apply (resize_bare win c x Hs); [reflexivity | constructor] end.
    - rewrite Hfs. apply spawn_airborne. }
  destruct H as (_ & Ho & Hf). split; assumption.
Qed.

Lemma no_selectors_no_accumulation_witness :
  let w := SnowSystem.run session
             (SnowSystem.init window1 no_options (page half)) in
  System.obstacles (sys w) = []
  /\ Forall airborne (System.flakes (sys w)).
Proof.
  apply (no_selectors_no_accumulation window1 no_options half session).
  reflexivity.
Defined.

(** ** Melting *)

(** [update_cases] with what each case knows. *)
Lemma update_cases_strict (v : SysView) (f : Flake.t) (w : Oracle) :
  (melted v f /\ Snowflake.update v f w = Snowflake.init v true w)
  \/ (Flake.landed f = true
      /\ 0 < Flake.meltAlpha f - meltSpeed (v_config v)
      /\ Snowflake.update v f w =
         (Flake.set_meltAlpha
            (Flake.meltAlpha f - meltSpeed (v_config v)) f, w))
  \/ (fell_out v f w
      /\ Snowflake.update v f w =
         bind (Snowflake.init v true) (Snowflake.detect v) (tick w))
  \/ (Flake.landed f = false
      /\ Flake.y (Snowflake.move v (fst (Date_now w)) f) <= v_height v
      /\ Snowflake.update v f w =
         Snowflake.detect v (Snowflake.move v (fst (Date_now w)) f) (tick w)).
Proof.
  destruct (Flake.landed f) eqn:Hl.
  - destruct (Rle_dec (Flake.meltAlpha f - meltSpeed (v_config v)) 0) as [H|H].
    + left. split; [split; assumption|].
      apply update_melted; split; assumption.
    + right; left. split; [reflexivity|]. split; [lra|].
      apply update_melting; [assumption | lra].
  - destruct (Rle_dec (Flake.y (Snowflake.move v (fst (Date_now w)) f))
                      (v_height v)) as [H|H].
    + right; right; right. split; [reflexivity|]. split; [exact H|].
      apply update_falling; assumption.
    + right; right; left.
      assert (Hf : fell_out v f w) by (split; [assumption | lra]).
      split; [exact Hf | apply update_fell_out; exact Hf].
Qed.

Lemma move_meltAlpha (v : SysView) (now : R) (f : Flake.t) :
  Flake.meltAlpha (Snowflake.move v now f) = Flake.meltAlpha f.
Proof.
  unfold Snowflake.move.
  destruct (wrap_body v (Snowflake.integrate v now f))
    as (_ & _ & _ & _ & _ & _ & _ & _ & Hw).
  destruct (integrate_body v now f) as (_ & _ & _ & _ & _ & _ & _ & Hi).
  rewrite Hw, Hi. reflexivity.
Qed.

Lemma init_melt_ok (v : SysView) (isNew : bool) (w : Oracle) :
  melt_ok (fst (Snowflake.init v isNew w)).
Proof.
  destruct isNew; [rewrite init_new | rewrite init_midfield];
    cbv zeta; unfold melt_ok; simpl; split; try lra; intros _; lra.
Qed.

Lemma detect_melt_ok (v : SysView) (f : Flake.t) (w : Oracle) :
  Flake.meltAlpha f = 1 -> melt_ok (fst (Snowflake.detect v f w)).
Proof.
  intro H. destruct (detect_same_body v f w) as (_ & _ & _ & _ & _ & _ & Hm & _).
  unfold melt_ok. rewrite Hm, H. split; [lra | reflexivity].
Qed.

Lemma update_melt_ok (v : SysView) (f : Flake.t) (w : Oracle) :
  0 <= meltSpeed (v_config v) ->
  melt_ok f -> melt_ok (fst (Snowflake.update v f w)).
Proof.
  intros Hs [Hr Hfall].
  destruct (update_cases_strict v f w)
    as [[_ ->] | [(Hl & Hpos & ->) | [[_ ->] | (Hl & _ & ->)]]].
  - apply init_melt_ok.
  - unfold melt_ok. simpl. rewrite Hl. split; [lra | discriminate].
  - unfold bind. rewrite init_new. cbv zeta.
    apply detect_melt_ok. simpl. lra.
  - apply detect_melt_ok. rewrite move_meltAlpha. apply Hfall, Hl.
Qed.

(** X6. With meltSpeed >= 0 the melt opacity of every flake stays in
    (0, 1] through any run, and it is exactly 1 for every flake that is
    falling: a flake is never falling and partly melted at once. *)
Theorem melt_opacity_in_range (win : Window) (options : Options)
    (o : Oracle) (evs : list (Window * Event)) :
  fair o ->
  0 <= meltSpeed (merge DEFAULTS options) ->
  Forall melt_ok
    (System.flakes
       (sys (SnowSystem.run evs (SnowSystem.init win options (page o))))).
Proof.
  intros Ho Hs.
  set (c := merge DEFAULTS options) in *.
  assert (Hi : forall v isNew w, v_config v = c -> True -> fair w ->
                 melt_ok (fst (Snowflake.init v isNew w)))
    by (intros; apply init_melt_ok).
  assert (Hu : forall v f w, v_config v = c -> True -> fair w -> melt_ok f ->
                 melt_ok (fst (Snowflake.update v f w)))
    by (intros v f w <- _ _ Hf; apply update_melt_ok; assumption).
  apply (run_inv c (fun _ => True) melt_ok Hu).
  - apply Forall_forall; intros; exact I.
  - apply init_inv; auto.
Qed.

Lemma melt_opacity_in_range_witness :
  Forall melt_ok
    (System.flakes
       (sys (SnowSystem.run session
               (SnowSystem.init window1 card_options (page half))))).
Proof.
  apply (melt_opacity_in_range window1 card_options half session).
  - exact fair_half.
  - simpl; lra.
Defined.

(** ** The picture of a frame *)



(** ** One canvas, one pending frame *)

Lemma updateObstacles_dom (win : Window) (w : World) :
  appended (dom (SnowSystem.updateObstacles win w)) = appended (dom w)
  /\ frames (dom (SnowSystem.updateObstacles win w)) = frames (dom w)
  /\ listeners (dom (SnowSystem.updateObstacles win w)) = listeners (dom w)
  /\ System.canvas (sys (SnowSystem.updateObstacles win w))
     = System.canvas (sys w).
Proof.
  unfold SnowSystem.updateObstacles. cbv zeta.
  destruct (System.config (sys w)) as [[? ? ? ? ? ? [|sel sels] ? ? ?]|];
    try (repeat split; fail).
  destruct (SnowSystem.gather _ _ _) as [elements warned]. repeat split.
Qed.



Lemma loop_dom (w : World) :
  appended (dom (SnowSystem.loop w)) = appended (dom w)
  /\ frames (dom (SnowSystem.loop w)) = S (frames (dom w))
  /\ listeners (dom (SnowSystem.loop w)) = listeners (dom w)
  /\ System.canvas (sys (SnowSystem.loop w)) = System.canvas (sys w).
Proof.
  unfold SnowSystem.loop. cbv zeta.
  destruct (System.config (sys w)) as [c|]; [|repeat split].
  destruct (SnowSystem.each _ _ _) as [r o]. repeat split.
Qed.


Lemma init_started (win : Window) (options : Options) (o : Oracle) :
  started (merge DEFAULTS options) (SnowSystem.init win options (page o)).
Proof.
  set (c := merge DEFAULTS options).
  rewrite init_steps by reflexivity.
  destruct (loop_keeps (spawned win options (page o)))
    as [(K1 & _ & _ & K4 & K5) _].
  destruct (loop_dom (spawned win options (page o))) as (D1 & D2 & D3 & D4).
  destruct (spawnFlakes_keeps (prepared win options (page o)))
    as [(S1 & _ & _ & S4 & S5) _].
  destruct (prepared_spec win options (page o)) as (P1 & _ & P3 & P4 & _).
  assert (Hsp : appended (dom (spawned win options (page o))) = 1%nat
                /\ frames (dom (spawned win options (page o))) = 0%nat
                /\ listeners (dom (spawned win options (page o)))
                   = [OnResize; OnScroll]
                     ++ (if mouseInteraction c then [OnMouseMove] else [])
                /\ System.canvas (sys (spawned win options (page o)))
                   = Some (mkCanvas (innerWidth win) (innerHeight win)
                                    (Some (zIndex c)))).
  { unfold spawned, SnowSystem.spawnFlakes. cbv zeta. rewrite P1.
    destruct (SnowSystem.spawn _ _ _) as [fs o']. simpl.
    unfold prepared, SnowSystem.resize. cbv zeta.
    match goal with |- context [SnowSystem.updateObstacles win ?x] =>
      destruct (updateObstacles_dom win x) as (U1 & U2 & U3 & U4) end.
    rewrite U1, U2, U3, U4. repeat split. }
  destruct Hsp as (A1 & A2 & A3 & A4).
  destruct (set_isRunning_keeps true
              (SnowSystem.loop (spawned win options (page o))))
    as (R1 & R2 & _ & _ & R5 & R6 & R7 & R8).
  unfold started. rewrite R1, R2, R5, R6, R7, R8.
  rewrite K1, K4, K5, D1, D2, D3, D4. unfold spawned in *.
  rewrite S1, S4, S5, P1, P3, P4, A1, A2, A3, A4.
  repeat split.
  exists (innerWidth win), (innerHeight win). repeat split.
Qed.



(** ** The picture of a frame, continued *)




(** ** Events that are not frames *)

Lemma handle_same_flakes (win : Window) (ev : Event) (l : Listener)
    (w : World) :
  same_flakes w (SnowSystem.handle win ev l w).
Proof.
  destruct ev, l; simpl; try (split; reflexivity).
  - apply resize_keeps.
  - apply updateObstacles_keeps.
Qed.

(** X10. Only animation frames touch the flakes: a resize, a scroll or a
    mouse move leaves every flake as it is and draws nothing from the
    oracle, whatever listeners are registered. *)
Theorem only_frames_move_flakes (win : Window) (ev : Event) (w : World) :
  ev <> AnimationFrame ->
  System.flakes (sys (SnowSystem.deliver win ev w)) = System.flakes (sys w)
  /\ oracle (SnowSystem.deliver win ev w) = oracle w.
Proof.
  intro H.
  assert (Hfold : forall ls w0,
            same_flakes w0
              (fold_left (fun w1 l => SnowSystem.handle win ev l w1) ls w0)).
  { induction ls as [|l ls IH]; intro w0; simpl; [split; reflexivity|].
    destruct (IH (SnowSystem.handle win ev l w0)) as [H1 H2].
    destruct (handle_same_flakes win ev l w0) as [H3 H4].
    split; congruence. }
  destruct ev; try apply Hfold. congruence.
Qed.

Lemma only_frames_move_flakes_witness :
  System.flakes
    (sys (SnowSystem.deliver window1 Resize
            (SnowSystem.init window0 no_options (page half))))
  = System.flakes (sys (SnowSystem.init window0 no_options (page half)))
  /\ oracle (SnowSystem.deliver window1 Resize
               (SnowSystem.init window0 no_options (page half)))
     = oracle (SnowSystem.init window0 no_options (page half)).
Proof.
  apply (only_frames_move_flakes window1 Resize).
  discriminate.
Defined.

(** ** The repulsion field *)

Lemma atan2_direction (x y : R) :
  0 < x * x + y * y ->
  cos (atan2 y x) = x / sqrt (x * x + y * y)
  /\ sin (atan2 y x) = y / sqrt (x * x + y * y).
Proof.
  intro Hpos.
  set (D := sqrt (x * x + y * y)).
  assert (HD : 0 < D) by (apply sqrt_lt_R0; exact Hpos).
  assert (HDD : D * D = x * x + y * y) by (apply sqrt_sqrt; lra).
  unfold atan2.
  destruct (0 <? x) eqn:E1; [apply Rltb_true in E1 | apply Rltb_false in E1].
  - (* x > 0 *)
    set (t := y / x). set (s := sqrt (1 + t²)).
    assert (Hs : 0 < s) by (apply sqrt_lt_R0; unfold Rsqr; nra).
    assert (Hss : s * s = 1 + t * t)
      by (unfold s; rewrite sqrt_sqrt; unfold Rsqr; nra).
    assert (Ht : t * x = y) by (unfold t; field; lra).
    assert (HxsD : x * s = D).
    { symmetry. apply sqrt_lem_1; nra. }
    rewrite cos_atan, sin_atan. fold s. rewrite <- HxsD.
    split; field_simplify_eq; try lra; nra.
  - destruct (x <? 0) eqn:E2; [apply Rltb_true in E2 | apply Rltb_false in E2].
    + (* x < 0 *)
      set (t := y / x). set (s := sqrt (1 + t²)).
      assert (Hs : 0 < s) by (apply sqrt_lt_R0; unfold Rsqr; nra).
      assert (Hss : s * s = 1 + t * t)
        by (unfold s; rewrite sqrt_sqrt; unfold Rsqr; nra).
      assert (Ht : t * x = y) by (unfold t; field; lra).
      assert (HxsD : - x * s = D).
      { symmetry. apply sqrt_lem_1; nra. }
      assert (Hc : cos (atan t) = 1 / s) by (rewrite cos_atan; reflexivity).
      assert (Hsn : sin (atan t) = t / s) by (rewrite sin_atan; reflexivity).
      destruct (0 <=? y).
      * rewrite neg_cos, neg_sin, Hc, Hsn. rewrite <- HxsD.
        split; field_simplify_eq; try lra; nra.
      * rewrite cos_minus, sin_minus, cos_PI, sin_PI, Hc, Hsn. rewrite <- HxsD.
        split; field_simplify_eq; try lra; nra.
    + (* x = 0 *)
      assert (Hx : x = 0) by lra. subst x.
      assert (Hy2 : D * D = y * y) by lra.
      destruct (0 <? y) eqn:E3; [apply Rltb_true in E3 | apply Rltb_false in E3].
      * assert (D = y) by nra. rewrite cos_PI2, sin_PI2.
        split; field_simplify_eq; lra.
      * destruct (y <? 0) eqn:E4;
          [apply Rltb_true in E4 | apply Rltb_false in E4]; [|nra].
        assert (D = - y) by nra. rewrite cos_neg, sin_neg, cos_PI2, sin_PI2.
        split; field_simplify_eq; lra.
Qed.

(** X11. Inside the radius the repulsion pushes the flake straight away
    from the pointer: the displacement added is the unit vector from the
    pointer to the flake, times 5 * z, times the force
    (radius - dist) / radius, which falls off linearly from 1 at the
    pointer to 0 at the radius. *)
Theorem repulsion_pushes_away (v : SysView) (f : Flake.t) (dx dy : R) :
  let distX := Flake.x f - Mouse.x (v_mouse v) in
  let distY := Flake.y f - Mouse.y (v_mouse v) in
  let dist := sqrt (distX * distX + distY * distY) in
  let force :=
    (mouseRepulsionRadius (v_config v) - dist)
    / mouseRepulsionRadius (v_config v) in
  mouseInteraction (v_config v) = true ->
  0 < dist < mouseRepulsionRadius (v_config v) ->
  Snowflake.repel v f (dx, dy)
  = (dx + distX / dist * force * 5 * Flake.z f,
     dy + distY / dist * force * 5 * Flake.z f)
  /\ 0 < force < 1.
Proof.
  intros distX distY dist force Hon [Hpos Hlt].
  assert (Hsq : 0 < distX * distX + distY * distY).
  { destruct (Rle_lt_dec (distX * distX + distY * distY) 0) as [H|H]; [|exact H].
    exfalso. assert (E : distX * distX + distY * distY = 0) by nra.
    unfold dist in Hpos. rewrite E, sqrt_0 in Hpos. lra. }
  destruct (atan2_direction distX distY Hsq) as [Hc Hs].
  split.
  - unfold Snowflake.repel. cbv zeta. rewrite Hon.
    fold distX distY. fold dist.
    rewrite (proj2 (Rltb_true _ _) Hlt).
    rewrite Hc, Hs. reflexivity.
  - unfold force. split.
    + apply Rdiv_lt_0_compat; lra.
    + apply Rmult_lt_reg_r with (mouseRepulsionRadius (v_config v)); [lra|].
      unfold Rdiv. rewrite Rmult_assoc, Rinv_l by lra. lra.
Qed.

Lemma repulsion_pushes_away_witness :
  let distX := Flake.x drifting - Mouse.x (v_mouse near_view) in
  let distY := Flake.y drifting - Mouse.y (v_mouse near_view) in
  let dist := sqrt (distX * distX + distY * distY) in
  let force :=
    (mouseRepulsionRadius (v_config near_view) - dist)
    / mouseRepulsionRadius (v_config near_view) in
  Snowflake.repel near_view drifting (0, 0)
  = (0 + distX / dist * force * 5 * Flake.z drifting,
     0 + distY / dist * force * 5 * Flake.z drifting)
  /\ 0 < force < 1.
Proof.
  apply (repulsion_pushes_away near_view drifting 0 0).
  - reflexivity.
  - simpl.
    replace ((400 - 397) * (400 - 397) + (300 - 296) * (300 - 296))
      with (5 * 5) by lra.
    rewrite sqrt_square by lra. lra.
Defined.

(** X12. The edges of the repulsion field.  At the radius and beyond it,
    and so for every radius <= 0, nothing is added; a flake exactly at the
    pointer is pushed with full force along +x, by 5 * z. *)
Theorem repulsion_edges (v : SysView) (f : Flake.t) (d : R * R) :
  (mouseRepulsionRadius (v_config v)
   <= sqrt ((Flake.x f - Mouse.x (v_mouse v)) * (Flake.x f - Mouse.x (v_mouse v))
            + (Flake.y f - Mouse.y (v_mouse v))
              * (Flake.y f - Mouse.y (v_mouse v))) ->
   Snowflake.repel v f d = d)
  /\ (mouseRepulsionRadius (v_config v) <= 0 -> Snowflake.repel v f d = d)
  /\ (mouseInteraction (v_config v) = true ->
      0 < mouseRepulsionRadius (v_config v) ->
      Flake.x f = Mouse.x (v_mouse v) -> Flake.y f = Mouse.y (v_mouse v) ->
      Snowflake.repel v f d = (fst d + 5 * Flake.z f, snd d)).
Proof.
  assert (Hfar : forall r, mouseRepulsionRadius (v_config v) <= r ->
            r = sqrt ((Flake.x f - Mouse.x (v_mouse v))
                      * (Flake.x f - Mouse.x (v_mouse v))
                      + (Flake.y f - Mouse.y (v_mouse v))
                        * (Flake.y f - Mouse.y (v_mouse v))) ->
            Snowflake.repel v f d = d).
  { intros r Hr ->. unfold Snowflake.repel. cbv zeta. destruct d as [dx dy].
    destruct (mouseInteraction (v_config v)); [|reflexivity].
    rewrite (proj2 (Rltb_false _ _) Hr). reflexivity. }
  split; [|split].
  - intro H. eapply Hfar; [exact H | reflexivity].
  - intro H. eapply Hfar; [|reflexivity].
    eapply Rle_trans; [exact H | apply sqrt_pos].
  - intros Hon Hr Hx Hy. unfold Snowflake.repel. cbv zeta.
    destruct d as [dx dy]. rewrite Hon, Hx, Hy.
    replace (Mouse.x (v_mouse v) - Mouse.x (v_mouse v)) with 0 by lra.
    replace (Mouse.y (v_mouse v) - Mouse.y (v_mouse v)) with 0 by lra.
    replace (0 * 0 + 0 * 0) with 0 by lra. rewrite sqrt_0.
    rewrite (proj2 (Rltb_true _ _) Hr).
    assert (Ha : atan2 0 0 = 0).
    { unfold atan2.
      rewrite (proj2 (Rltb_false 0 0)) by lra. reflexivity. }
    rewrite Ha, cos_0, sin_0. simpl. f_equal; field; lra.
Qed.

Lemma repulsion_edges_witness :
  Snowflake.repel on_view drifting (0, 0)
  = (fst (0, 0) + 5 * Flake.z drifting, snd (0, 0)).
Proof.
  apply (proj2 (proj2 (repulsion_edges on_view drifting (0, 0)))).
  - reflexivity.
  - simpl; lra.
  - reflexivity.
  - reflexivity.
Defined.

(** ** The obstacle refresh *)

Lemma set_add_In (el x : nat) (l : list nat) :
  In x (SnowSystem.set_add el l) <-> In x l \/ x = el.
Proof.
  unfold SnowSystem.set_add.
  destruct (existsb (Nat.eqb el) l) eqn:E.
  - apply existsb_exists in E. destruct E as (y & Hy & Heq).
    apply Nat.eqb_eq in Heq. subst y.
    split; [intro H; left; exact H | intros [H | ->]; assumption].
  - rewrite in_app_iff. simpl. intuition congruence.
Qed.

Lemma set_add_NoDup (el : nat) (l : list nat) :
  NoDup l -> NoDup (SnowSystem.set_add el l).
Proof.
  intro H. unfold SnowSystem.set_add.
  destruct (existsb (Nat.eqb el) l) eqn:E; [exact H|].
  apply NoDup_app; [exact H | repeat constructor; intros [] |].
  intros x Hin [Hx | []]. subst x.
  assert (existsb (Nat.eqb el) l = true)
    by (apply existsb_exists; exists el; split;
        [exact Hin | apply Nat.eqb_refl]).
  congruence.
Qed.

Lemma add_all_spec (found : list nat) :
  forall l,
    (NoDup l -> NoDup (fold_left (fun e el => SnowSystem.set_add el e) found l))
    /\ forall x, In x (fold_left (fun e el => SnowSystem.set_add el e) found l)
                 <-> In x l \/ In x found.
Proof.
  induction found as [|el found IH]; intro l; simpl.
  - split; [auto | intro x; tauto].
  - destruct (IH (SnowSystem.set_add el l)) as [Hn Hi]. split.
    + intro H. apply Hn, set_add_NoDup, H.
    + intro x. rewrite Hi, set_add_In. intuition.
Qed.

Lemma gather_spec (win : Window) (selectors : list string) :
  forall elements warned,
    let r := SnowSystem.gather win selectors (elements, warned) in
    (NoDup elements -> NoDup (fst r))
    /\ (forall el, In el (fst r)
                   <-> In el elements \/ found_by win selectors el)
    /\ snd r = warned ++ rejected win selectors.
Proof.
  induction selectors as [|sel rest IH]; intros elements warned; simpl.
  - split; [auto|]. split; [|rewrite app_nil_r; reflexivity].
    intro el. split; [intro H; left; exact H|].
    intros [H | (s & fd & [] & _)]. exact H.
  - destruct (querySelectorAll win sel) as [found|] eqn:E.
    + destruct (IH (fold_left (fun e el => SnowSystem.set_add el e)
                              found elements) warned) as (Hn & Hi & Hw).
      destruct (add_all_spec found elements) as [Hn' Hi'].
      split; [intro H; apply Hn, Hn', H|]. split; [|exact Hw].
      intro el. rewrite Hi, Hi'. split.
      * intros [[H | H] | (s & fd & Hs & Hq & Hin)].
        -- left; exact H.
        -- right. exists sel, found. split; [left; reflexivity|]. split; assumption.
        -- right. exists s, fd. split; [right; exact Hs|]. split; assumption.
      * intros [H | (s & fd & [<- | Hs] & Hq & Hin)].
        -- left; left; exact H.
        -- left; right. rewrite E in Hq. injection Hq as <-. exact Hin.
        -- right. exists s, fd. split; [exact Hs|]. split; assumption.
    + destruct (IH elements (warned ++ [sel])) as (Hn & Hi & Hw).
      split; [exact Hn|]. split.
      * intro el. rewrite Hi. split.
        -- intros [H | (s & fd & Hs & Hq & Hin)]; [left; exact H|].
           right. exists s, fd. split; [right; exact Hs|]. split; assumption.
        -- intros [H | (s & fd & [<- | Hs] & Hq & Hin)]; [left; exact H| |].
           ++ congruence.
           ++ right. exists s, fd. split; [exact Hs|]. split; assumption.
      * rewrite Hw, <- app_assoc. reflexivity.
Qed.

Lemma to_obstacles_In (win : Window) (height : R) (elements : list nat)
    (o : Obstacle.t) :
  In o (SnowSystem.to_obstacles win height elements)
  <-> exists el, In el elements
                 /\ on_screen height (getBoundingClientRect win el)
                 /\ o = obstacle_of (getBoundingClientRect win el).
Proof.
  unfold SnowSystem.to_obstacles. rewrite in_flat_map. split.
  - intros (el & Hin & Ho). exists el. split; [exact Hin|].
    destruct (DOMRect.bottom _ <? 0) eqn:E1; [destruct Ho|].
    destruct (DOMRect.top _ >? height) eqn:E2; [destruct Ho|].
    apply Rltb_false in E1. apply Rgtb_false in E2.
    destruct Ho as [<- | []]. repeat split; assumption.
  - intros (el & Hin & [Hb Ht] & ->). exists el. split; [exact Hin|].
    rewrite (proj2 (Rltb_false _ _) Hb), (proj2 (Rgtb_false _ _) Ht).
    left. reflexivity.
Qed.

Lemma to_obstacles_length (win : Window) (height : R) (elements : list nat) :
  (List.length (SnowSystem.to_obstacles win height elements)
   <= List.length elements)%nat.
Proof.
  induction elements as [|el rest IH]; simpl; [lia|].
  rewrite length_app.
  destruct (_ || _); simpl; lia.
Qed.

(** The refresh in closed form, for a configured system. *)
Lemma updateObstacles_spec (win : Window) (c : Config) (w : World) :
  System.config (sys w) = Some c ->
  exists elements,
    NoDup elements
    /\ (forall el, In el elements <-> found_by win (collectSelectors c) el)
    /\ System.obstacles (sys (SnowSystem.updateObstacles win w))
       = SnowSystem.to_obstacles win (System.height (sys w)) elements
    /\ warnings (dom (SnowSystem.updateObstacles win w))
       = warnings (dom w) ++ rejected win (collectSelectors c).
Proof.
  intro Hc. unfold SnowSystem.updateObstacles. cbv zeta. rewrite Hc.
  destruct (collectSelectors c) as [|sel sels] eqn:Es.
  - exists []. split; [constructor|]. split.
    + intro el. split; [intros [] | intros (s & fd & [] & _)].
    + destruct c; simpl in Es; subst. simpl. rewrite app_nil_r.
      split; reflexivity.
  - destruct (gather_spec win (sel :: sels) [] []) as (Hn & Hi & Hw).
    destruct c; simpl in Es; subst.
    destruct (SnowSystem.gather win (sel :: sels) ([], [])) as [elements warned].
    simpl in Hn, Hi, Hw. exists elements.
    split; [apply Hn; constructor|]. split.
    + intro el. rewrite Hi. simpl. tauto.
    + simpl. rewrite Hw. split; reflexivity.
Qed.

Lemma init_config (win : Window) (options : Options) (o : Oracle) :
  System.config (sys (SnowSystem.init win options (page o)))
  = Some (merge DEFAULTS options).
Proof. destruct (init_started win options o) as (_ & H & _). exact H. Qed.

(** X13. After a refresh the obstacles are exactly the rectangles of the
    elements that some collect selector finds and that are not entirely
    above or below the window (bottom >= 0 and top <= height); an element
    found by several selectors, or several times, counts once. *)
Theorem refresh_keeps_visible_matches (win : Window) (c : Config)
    (w : World) :
  System.config (sys w) = Some c ->
  let obs := System.obstacles (sys (SnowSystem.updateObstacles win w)) in
  (forall o,
      In o obs <->
      exists el, found_by win (collectSelectors c) el
                 /\ on_screen (System.height (sys w))
                              (getBoundingClientRect win el)
                 /\ o = obstacle_of (getBoundingClientRect win el))
  /\ exists elements,
       NoDup elements
       /\ (forall el, In el elements <-> found_by win (collectSelectors c) el)
       /\ (List.length obs <= List.length elements)%nat.
Proof.
  intros Hc obs.
  destruct (updateObstacles_spec win c w Hc) as (els & Hn & Hi & Ho & _).
  subst obs. rewrite Ho. split.
  - intro o. rewrite to_obstacles_In. split.
    + intros (el & Hin & H). exists el. split; [apply Hi; exact Hin | exact H].
    + intros (el & Hf & H). exists el. split; [apply Hi; exact Hf | exact H].
  - exists els. split; [exact Hn|]. split; [exact Hi|].
    apply to_obstacles_length.
Qed.

Lemma refresh_keeps_visible_matches_witness :
  let w := SnowSystem.init window1 card_options (page half) in
  let c := merge DEFAULTS card_options in
  let obs := System.obstacles (sys (SnowSystem.updateObstacles window1 w)) in
  (forall o,
      In o obs <->
      exists el, found_by window1 (collectSelectors c) el
                 /\ on_screen (System.height (sys w))
                              (getBoundingClientRect window1 el)
                 /\ o = obstacle_of (getBoundingClientRect window1 el))
  /\ exists elements,
       NoDup elements
       /\ (forall el, In el elements <-> found_by window1 (collectSelectors c) el)
       /\ (List.length obs <= List.length elements)%nat.
Proof.
  exact (refresh_keeps_visible_matches window1 (merge DEFAULTS card_options)
           (SnowSystem.init window1 card_options (page half))
           (init_config window1 card_options half)).
Defined.

(** X14. A selector the browser rejects does not abort the refresh: it is
    reported, once per refresh and in order, and the other selectors are
    still used; when no selector finds an element the obstacle list is
    empty. *)
Theorem refresh_survives_bad_selectors (win : Window) (c : Config)
    (w : World) :
  System.config (sys w) = Some c ->
  warnings (dom (SnowSystem.updateObstacles win w))
  = warnings (dom w) ++ rejected win (collectSelectors c)
  /\ (forall sel found el,
        In sel (collectSelectors c) ->
        querySelectorAll win sel = Some found -> In el found ->
        on_screen (System.height (sys w)) (getBoundingClientRect win el) ->
        In (obstacle_of (getBoundingClientRect win el))
           (System.obstacles (sys (SnowSystem.updateObstacles win w))))
  /\ ((forall sel, In sel (collectSelectors c) ->
                   querySelectorAll win sel = None
                   \/ querySelectorAll win sel = Some []) ->
      System.obstacles (sys (SnowSystem.updateObstacles win w)) = []).
Proof.
  intro Hc.
  destruct (updateObstacles_spec win c w Hc) as (els & Hn & Hi & Ho & Hw).
  split; [exact Hw|]. rewrite Ho. split.
  - intros sel found el Hs Hq Hin Hon. apply to_obstacles_In.
    exists el. split; [|split; [exact Hon | reflexivity]].
    apply Hi. exists sel, found. repeat split; assumption.
  - intro Hnone.
    assert (E : els = []).
    { destruct els as [|el rest]; [reflexivity|]. exfalso.
      destruct (proj1 (Hi el) (or_introl eq_refl)) as (s & fd & Hs & Hq & Hin).
      destruct (Hnone s Hs) as [H | H]; rewrite H in Hq; [discriminate|].
      injection Hq as <-. destruct Hin. }
    rewrite E. reflexivity.
Qed.

Lemma refresh_survives_bad_selectors_witness :
  let w := SnowSystem.init window1 card_options (page half) in
  warnings (dom (SnowSystem.updateObstacles window1 w))
  = warnings (dom w)
    ++ rejected window1 (collectSelectors (merge DEFAULTS card_options)).
Proof.
  exact (proj1 (refresh_survives_bad_selectors window1
                  (merge DEFAULTS card_options)
                  (SnowSystem.init window1 card_options (page half))
                  (init_config window1 card_options half))).
Defined.

(** ** Fields that only a spawn assigns *)

Lemma init_spawn_ranges (v : SysView) (isNew : bool) (w : Oracle) :
  fair w -> spawn_ranges (v_config v) (fst (Snowflake.init v isNew w)).
Proof.
  intro Hw.
  pose proof (fair_draw w 2 Hw). pose proof (fair_draw w 3 Hw).
  pose proof (fair_draw w 4 Hw). pose proof (fair_draw w 5 Hw).
  destruct isNew; [rewrite init_new | rewrite init_midfield];
    cbv zeta; unfold spawn_ranges; simpl; repeat split; lra.
Qed.

Lemma spawn_ranges_same (c : Config) (f g : Flake.t) :
  Flake.z g = Flake.z f -> Flake.vy g = Flake.vy f ->
  Flake.vx g = Flake.vx f -> Flake.stackOffset g = Flake.stackOffset f ->
  Flake.alpha g = Flake.alpha f ->
  spawn_ranges c f -> spawn_ranges c g.
Proof.
  unfold spawn_ranges. intros -> -> -> -> ->. trivial.
Qed.

Lemma move_same (v : SysView) (now : R) (f : Flake.t) :
  Flake.z (Snowflake.move v now f) = Flake.z f
  /\ Flake.vy (Snowflake.move v now f) = Flake.vy f
  /\ Flake.vx (Snowflake.move v now f) = Flake.vx f
  /\ Flake.stackOffset (Snowflake.move v now f) = Flake.stackOffset f
  /\ Flake.alpha (Snowflake.move v now f) = Flake.alpha f.
Proof.
  unfold Snowflake.move.
  destruct (wrap_body v (Snowflake.integrate v now f))
    as (W1 & _ & _ & _ & W5 & W6 & W7 & W8 & _).
  destruct (integrate_body v now f) as (I1 & _ & _ & I4 & I5 & I6 & I7 & _).
  repeat split; congruence.
Qed.

Lemma detect_spawn_ranges (v : SysView) (c : Config) (f : Flake.t)
    (w : Oracle) :
  spawn_ranges c f -> spawn_ranges c (fst (Snowflake.detect v f w)).
Proof.
  destruct (detect_same_body v f w) as (D1 & _ & _ & D4 & D5 & D6 & _ & D8).
  apply spawn_ranges_same; assumption.
Qed.

Lemma update_spawn_ranges (v : SysView) (f : Flake.t) (w : Oracle) :
  fair w -> spawn_ranges (v_config v) f ->
  spawn_ranges (v_config v) (fst (Snowflake.update v f w)).
Proof.
  intros Hw Hf.
  destruct (update_cases v f w)
    as [[_ ->] | [[_ ->] | [[_ ->] | [_ ->]]]].
  - apply init_spawn_ranges; exact Hw.
  - exact Hf.
  - unfold bind.
    pose proof (init_spawn_ranges v true (tick w) (fair_tick w Hw)) as Hs.
    destruct (Snowflake.init v true (tick w)) as [fresh w1].
    apply detect_spawn_ranges. exact Hs.
  - apply detect_spawn_ranges.
    destruct (move_same v (fst (Date_now w)) f) as (M1 & M2 & M3 & M4 & M5).
    eapply spawn_ranges_same; eassumption.
Qed.

(** X15. The velocity is not re-derived while a flake falls: in every
    run, for every flake, vy stays in [gravity*z, gravity*z + 0.5), vx in
    [-0.25, 0.25), stackOffset in [0, 4) and alpha at 1, as the spawn
    rule left them; wind, drift and repulsion change the position
    only. *)
Theorem spawn_fields_stay_in_range (win : Window) (options : Options)
    (o : Oracle) (evs : list (Window * Event)) :
  fair o ->
  Forall (spawn_ranges (merge DEFAULTS options))
    (System.flakes
       (sys (SnowSystem.run evs (SnowSystem.init win options (page o))))).
Proof.
  intro Ho.
  set (c := merge DEFAULTS options).
  assert (Hi : forall v isNew w, v_config v = c -> True -> fair w ->
                 spawn_ranges c (fst (Snowflake.init v isNew w)))
    by (intros v b w <- _ Hw; apply init_spawn_ranges; exact Hw).
  assert (Hu : forall v f w, v_config v = c -> True -> fair w ->
                 spawn_ranges c f ->
                 spawn_ranges c (fst (Snowflake.update v f w)))
    by (intros v f w <- _ Hw Hf; apply update_spawn_ranges; assumption).
  apply (run_inv c (fun _ => True) (spawn_ranges c) Hu).
  - apply Forall_forall; intros; exact I.
  - apply init_inv; auto.
Qed.

Lemma spawn_fields_stay_in_range_witness :
  Forall (spawn_ranges (merge DEFAULTS card_options))
    (System.flakes
       (sys (SnowSystem.run session
               (SnowSystem.init window1 card_options (page half))))).
Proof.
  apply (spawn_fields_stay_in_range window1 card_options half session).
  exact fair_half.
Defined.

(** ** Random numbers used by the first population *)

Lemma skip_skip (a b : nat) (w : Oracle) : skip a (skip b w) = skip (a + b) w.
Proof. unfold skip. simpl. rewrite Nat.add_assoc. reflexivity. Qed.

Lemma spawn_oracle (v : SysView) (n : nat) :
  forall w, snd (SnowSystem.spawn v n w) = skip (6 * n) w.
Proof.
  induction n as [|n IH]; intro w.
  - destruct w; reflexivity.
  - simpl SnowSystem.spawn. unfold bind, Snowflake.new.
    rewrite init_midfield. cbv zeta.
    specialize (IH (skip 6 w)).
    destruct (SnowSystem.spawn v n (skip 6 w)) as [fs w2]. simpl in *.
    rewrite IH, skip_skip. f_equal. lia.
Qed.

Lemma spawn_nth (v : SysView) (n : nat) :
  forall k w d,
    (k < n)%nat ->
    nth k (fst (SnowSystem.spawn v n w)) d
    = fst (Snowflake.init v false (skip (6 * k) w)).
Proof.
  induction n as [|n IH]; intros k w d Hk; [lia|].
  simpl SnowSystem.spawn. unfold bind, Snowflake.new.
  destruct k as [|k].
  - change (6 * 0)%nat with 0%nat.
    replace (skip 0 w) with w by (destruct w; reflexivity).
    destruct (Snowflake.init v false w) as [f w1].
    destruct (SnowSystem.spawn v n w1) as [fs w2]. reflexivity.
  - rewrite init_midfield. cbv beta iota zeta.
    specialize (IH k (skip 6 w) d).
    destruct (SnowSystem.spawn v n (skip 6 w)) as [fs w2].
    unfold ret. cbn [fst snd nth] in *.
    rewrite IH by lia. rewrite skip_skip.
    replace (6 * S k)%nat with (6 * k + 6)%nat by lia. reflexivity.
Qed.

(** X16. The first population uses the random numbers in a fixed layout:
    flake number k (from 0) is built from draws 6k .. 6k+5, in the order
    z, x, y, vy, vx, stackOffset; n flakes consume exactly 6n draws and
    the clock is not read. *)
Theorem spawn_draws_six_per_flake (v : SysView) (n k : nat) (w : Oracle)
    (d : Flake.t) :
  (k < n)%nat ->
  let f := nth k (fst (SnowSystem.spawn v n w)) d in
  let r i := draw_at w (6 * k + i) in
  Flake.z f = r 0%nat * 0.9 + 0.1
  /\ Flake.x f = r 1%nat * v_width v
  /\ Flake.y f = r 2%nat * v_height v
  /\ Flake.vy f = gravity (v_config v) * Flake.z f + r 3%nat * 0.5
  /\ Flake.vx f = (r 4%nat - 0.5) * 0.5
  /\ Flake.stackOffset f = r 5%nat * 4
  /\ snd (SnowSystem.spawn v n w) = skip (6 * n) w.
Proof.
  intros Hk f r. subst f r. cbv beta.
  rewrite spawn_nth by exact Hk. rewrite init_midfield. cbv zeta.
  rewrite spawn_oracle.
  assert (E : forall i, draw_at (skip (6 * k) w) i = draw_at w (6 * k + i)).
  { intro i. unfold draw_at, skip. simpl rand_tape. simpl rand_pos.
    f_equal. lia. }
  rewrite <- !E. simpl Flake.z. simpl Flake.x. simpl Flake.y.
  simpl Flake.vy. simpl Flake.vx. simpl Flake.stackOffset.
  repeat split.
Qed.

Lemma spawn_draws_six_per_flake_witness :
  let f := nth 1 (fst (SnowSystem.spawn view0 3 half)) drifting in
  let r i := draw_at half (6 * 1 + i) in
  Flake.z f = r 0%nat * 0.9 + 0.1
  /\ Flake.x f = r 1%nat * v_width view0
  /\ Flake.y f = r 2%nat * v_height view0
  /\ Flake.vy f = gravity (v_config view0) * Flake.z f + r 3%nat * 0.5
  /\ Flake.vx f = (r 4%nat - 0.5) * 0.5
  /\ Flake.stackOffset f = r 5%nat * 4
  /\ snd (SnowSystem.spawn view0 3 half) = skip (6 * 3) half.
Proof.
  apply (spawn_draws_six_per_flake view0 3 1 half drifting).
  lia.
Defined.

(** ** Stickiness zero against stickiness one *)

(** With stickiness 1 a falling near flake that is moved into the window
    of an obstacle lands. *)
Lemma update_lands_on (v : SysView) (f : Flake.t) (w : Oracle)
    (obs : Obstacle.t) :
  fair w ->
  Flake.landed f = false ->
  stickiness (v_config v) = 1 ->
  Flake.z f > 0.4 ->
  In obs (v_obstacles v) ->
  Snowflake.qualifies obs (Snowflake.move v (fst (Date_now w)) f) = true ->
  Flake.y (Snowflake.move v (fst (Date_now w)) f) <= v_height v ->
  Flake.landed (fst (Snowflake.update v f w)) = true.
Proof.
  intros Hw Hl Hs Hz Hin Hq Hbot.
  rewrite update_falling by assumption.
  unfold Snowflake.detect.
  destruct (move_body v (fst (Date_now w)) f) as [Hmz _].
  rewrite (proj2 (Rgtb_true _ _)) by (rewrite Hmz; exact Hz).
  apply (collide_sure _ _ obs); auto using fair_tick.
Qed.

(** The page of [window2] started with stickiness 1: its one flake lands
    on the shelf in the first frame, the frame that [init] itself runs.
    With stickiness 0 the same flake meets the same stickiness test. *)
Lemma sticky_twin_lands :
  exists f,
    System.flakes (sys (SnowSystem.init window2 sticky_options (page half)))
    = [f]
    /\ Flake.landed f = true.
Proof.
  set (c := merge DEFAULTS sticky_options).
  set (w0 := spawned window2 sticky_options (page half)).
  rewrite init_steps by reflexivity. fold w0.
  destruct (set_isRunning_keeps true (SnowSystem.loop w0)) as (_ & _ & R3 & _).
  rewrite R3.
  (* the world handed to the first frame *)
  destruct (spawned_setup window2 sticky_options (page half)) as (Hc & _ & Hwd).
  fold w0 c in Hc, Hwd.
  destruct (spawnFlakes_keeps (prepared window2 sticky_options (page half)))
    as [(_ & _ & _ & _ & S5) Sob].
  destruct (prepared_spec window2 sticky_options (page half))
    as (P1 & _ & _ & P4 & P5).
  fold c in P1.
  assert (Hh : System.height (sys w0) = 600)
    by (unfold w0, spawned; rewrite S5, P4; reflexivity).
  assert (Hfair : fair (oracle w0)).
  { assert (Hi : forall (v : SysView) (isNew : bool) (w : Oracle),
                   v_config v = c -> True -> fair w -> True)
      by (intros; exact I).
    destruct (spawnFlakes_inv c (fun _ => True) (fun _ => True) Hi
                (prepared window2 sticky_options (page half)))
      as (_ & Hf & _); try exact I; try exact P1.
    - rewrite P5. exact fair_half.
    - exact Hf. }
  assert (Hobs : In (obstacle_of (getBoundingClientRect window2 0%nat))
                    (System.obstacles (sys w0))).
  { unfold w0, spawned. rewrite Sob. unfold prepared, SnowSystem.resize.
    cbv zeta.
    match goal with |- In _ (System.obstacles
                               (sys (SnowSystem.updateObstacles window2 ?x))) =>
      destruct (updateObstacles_spec window2 c x eq_refl)
        as (els & _ & Hi & Ho & _) end.
    rewrite Ho. apply to_obstacles_In. exists 0%nat.
    split; [|split; [|reflexivity]].
    - apply Hi. exists ".shelf"%string, [0%nat].
      split; [left; reflexivity|]. split; [reflexivity | left; reflexivity].
    - split; simpl; lra. }
  destruct (spawned_flakes window2 sticky_options (page half))
    as (v & Hvc & Hvw & Hvh & Hfs).
  fold w0 c in Hfs, Hvc.
  change (Z.to_nat (flakeCount c)) with 1%nat in Hfs.
  simpl SnowSystem.spawn in Hfs. unfold bind, Snowflake.new in Hfs.
  rewrite init_midfield in Hfs. cbv zeta in Hfs. simpl fst in Hfs.
  rewrite Hvc, Hvw, Hvh in Hfs.
  (* the first frame *)
  clearbody w0.
  unfold SnowSystem.loop. cbv zeta. rewrite Hc, Hfs.
  simpl SnowSystem.each. unfold bind.
  set (view := SnowSystem.view c (sys w0)).
  match goal with |- context [Snowflake.update view ?f0 (oracle w0)] =>
    set (flake0 := f0) end.
  assert (Hland : Flake.landed (fst (Snowflake.update view flake0 (oracle w0)))
                  = true).
  { set (now := fst (Date_now (oracle w0))).
    pose proof (SIN_bound (Flake.y flake0 * 0.01 + now * 0.002)) as Hsin.
    assert (Hg : Snowflake.move view now flake0
                 = Flake.set_y (Flake.y flake0 + Flake.vy flake0)
                     (Flake.set_x
                        (Flake.x flake0
                         + (Flake.vx flake0 + wind c * Flake.z flake0
                            + sin (Flake.y flake0 * 0.01 + now * 0.002)
                              * 0.5 * Flake.z flake0)) flake0)).
    { unfold Snowflake.move. rewrite integrate_off by reflexivity.
      apply wrap_inside. unfold view, SnowSystem.view. simpl v_width.
      rewrite Hwd. simpl in *. lra. }
    apply (update_lands_on view flake0 (oracle w0)
             (obstacle_of (getBoundingClientRect window2 0%nat)));
      fold now; rewrite ?Hg.
    - exact Hfair.
    - reflexivity.
    - reflexivity.
    - simpl; lra.
    - exact Hobs.
    - apply qualifies_true. unfold Snowflake.landY. simpl in *. lra.
    - unfold view, SnowSystem.view. simpl v_height. rewrite Hh.
      simpl; lra. }
  destruct (Snowflake.update view flake0 (oracle w0)) as [f' w1].
  exists f'. split; [reflexivity | exact Hland].
Qed.
